(** * The job-board API client ([src/services/api.ts])

    A shallow embedding of the [MongoDBAPI] class: the generic [request]
    helper, the typed methods built on it, and the two methods that call
    [fetch] directly ([submitPDF], [downloadPDF]).

    The browser is the environment of the code.  Its parts are modelled as
    follows:
    - [localStorage] is a finite map from keys to strings, threaded through
      every call;
    - the network is a function [network] from the arguments of a [fetch]
      call to what that call settles with, a variable of the section that
      holds the class, so every theorem holds for every server;
    - every call into the browser ([localStorage], [fetch], [console], the
      DOM) is recorded, in program order, in the trace of the computation;
    - a promise is the computation that settles it: [Resolved v] or
      [Rejected e]. *)

From Stdlib Require Import ZArith Ascii String List.
From stdpp Require Import base option list strings gmap pretty.

Local Open Scope string_scope.
Local Open Scope Z_scope.
Local Open Scope list_scope.

(** ** JavaScript values *)

(** The values the code handles: what [JSON.parse] produces, plus
    [undefined], which reading a missing property yields.  Numbers are the
    integral ones. *)
#[warnings="-register-all"]
Inductive value : Type :=
| VUndefined
| VNull
| VBool (b : bool)
| VNum (n : Z)
| VStr (s : string)
| VArr (items : list value)
| VObj (props : list (string * value)).

(** An exception object: [name] is the constructor's name. *)
Record JsError : Type := mkJsError { err_name : string; message : string }.

(** [ToBoolean]: the test of [if (v)], [v || w]. *)
Definition truthy (v : value) : bool :=
  match v with
  | VUndefined | VNull => false
  | VBool b => b
  | VNum n => negb (n =? 0)
  | VStr s => negb (String.eqb s "")
  | VArr _ | VObj _ => true
  end.

(** [ToString]: an array is its elements joined by commas, [null] and
    [undefined] elements rendering as nothing; a plain object is
    ["[object Object]"]. *)
Fixpoint ToString (v : value) : string :=
  match v with
  | VUndefined => "undefined"
  | VNull => "null"
  | VBool true => "true"
  | VBool false => "false"
  | VNum n => pretty n
  | VStr s => s
  | VArr items =>
      let fix join (l : list value) : string :=
        match l with
        | [] => ""
        | x :: rest =>
            let sx := match x with
                      | VUndefined | VNull => ""
                      | _ => ToString x
                      end in
            match rest with
            | [] => sx
            | _ :: _ => sx +:+ "," +:+ join rest
            end
        end in
      join items
  | VObj _ => "[object Object]"
  end.

(** [a || b] *)
Definition js_or (a b : value) : value := if truthy a then a else b.

(** Lookup of an own property, first binding of the key. *)
Fixpoint own_prop (props : list (string * value)) (key : string) : value :=
  match props with
  | [] => VUndefined
  | (k, v) :: rest => if String.eqb k key then v else own_prop rest key
  end.

(** The text V8 gives the [TypeError] of a property read on [null] or
    [undefined]. *)
Definition TypeError_read (base key : string) : JsError :=
  mkJsError "TypeError"
    ("Cannot read properties of " +:+ base +:+ " (reading '" +:+ key +:+ "')").

(** [v.key], for the keys the code reads ([message], [token], [id], [name],
    [email], [role]): none of them is a property of the prototypes of
    strings, numbers, booleans or arrays, so only an object can hold one. *)
Definition Get (v : value) (key : string) : JsError + value :=
  match v with
  | VUndefined => inl (TypeError_read "undefined" key)
  | VNull => inl (TypeError_read "null" key)
  | VObj props => inr (own_prop props key)
  | _ => inr VUndefined
  end.

(** [new Error(v)]: the message is [ToString v] unless [v] is [undefined]. *)
Definition new_Error (v : value) : JsError :=
  mkJsError "Error" (match v with VUndefined => "" | _ => ToString v end).

(** ** The data model *)

Inductive JobStatus := open | claimed | in_progress | completed | cancelled.
Inductive Priority := low | medium | high.
Inductive Role := admin | member.

Definition JobStatus_str (s : JobStatus) : string :=
  match s with
  | open => "open" | claimed => "claimed" | in_progress => "in-progress"
  | completed => "completed" | cancelled => "cancelled"
  end.

Definition Priority_str (p : Priority) : string :=
  match p with low => "low" | medium => "medium" | high => "high" end.

Definition Role_str (r : Role) : string :=
  match r with admin => "admin" | member => "member" end.

Record CreateJobData := {
  cj_title : string; cj_description : string; cj_scope : string;
  cj_fee : Z; cj_deadline : string; cj_priority : Priority;
  cj_category : string }.

(** [Partial<CreateJobData>] *)
Record UpdateJobData := {
  uj_title : option string; uj_description : option string;
  uj_scope : option string; uj_fee : option Z; uj_deadline : option string;
  uj_priority : option Priority; uj_category : option string }.

Record CreateUserData := {
  cu_name : string; cu_email : string; cu_password : string;
  cu_role : option Role }.

(** [Partial<CreateUserData>] *)
Record UpdateUserData := {
  uu_name : option string; uu_email : option string;
  uu_password : option string; uu_role : option Role }.

(** The [filters] argument of [getJobs]. *)
Record JobFilters := {
  f_status : option string; f_category : option string;
  f_priority : option string; f_search : option string }.

Record File := { file_name : string; file_content : string }.

(** A property whose value is [undefined] is absent from the object that
    [JSON.stringify] writes. *)
Definition opt_prop {A} (key : string) (f : A -> value) (o : option A)
  : list (string * value) :=
  match o with Some a => [(key, f a)] | None => [] end.

Definition CreateJobData_value (d : CreateJobData) : value :=
  VObj [("title", VStr (cj_title d)); ("description", VStr (cj_description d));
        ("scope", VStr (cj_scope d)); ("fee", VNum (cj_fee d));
        ("deadline", VStr (cj_deadline d));
        ("priority", VStr (Priority_str (cj_priority d)));
        ("category", VStr (cj_category d))].

Definition UpdateJobData_value (d : UpdateJobData) : value :=
  VObj (opt_prop "title" VStr (uj_title d)
        ++ opt_prop "description" VStr (uj_description d)
        ++ opt_prop "scope" VStr (uj_scope d)
        ++ opt_prop "fee" VNum (uj_fee d)
        ++ opt_prop "deadline" VStr (uj_deadline d)
        ++ opt_prop "priority" (fun p => VStr (Priority_str p)) (uj_priority d)
        ++ opt_prop "category" VStr (uj_category d)).

Definition CreateUserData_value (d : CreateUserData) : value :=
  VObj ([("name", VStr (cu_name d)); ("email", VStr (cu_email d));
         ("password", VStr (cu_password d))]
        ++ opt_prop "role" (fun r => VStr (Role_str r)) (cu_role d)).

Definition UpdateUserData_value (d : UpdateUserData) : value :=
  VObj (opt_prop "name" VStr (uu_name d)
        ++ opt_prop "email" VStr (uu_email d)
        ++ opt_prop "password" VStr (uu_password d)
        ++ opt_prop "role" (fun r => VStr (Role_str r)) (uu_role d)).

(** ** The browser *)

Inductive Body :=
| BodyJSON (v : value)                       (* the text [JSON.stringify(v)] *)
| BodyFormData (parts : list (string * File)).

(** The [RequestInit] dictionary; an absent member is [None]. *)
Record RequestInit := {
  method : option string;
  headers : option (gmap string string);
  body : option Body }.

Definition no_options : RequestInit :=
  {| method := None; headers := None; body := None |}.

(** The method [fetch] sends when [init.method] is absent. *)
Definition http_method (init : RequestInit) : string :=
  default "GET" (method init).

Definition sent_headers (init : RequestInit) : gmap string string :=
  default ∅ (headers init).

Record Response := {
  status : Z;
  json_body : option value;     (* [None]: the body is not JSON text *)
  blob : string }.

(** [response.ok] *)
Definition ok (r : Response) : bool := (200 <=? status r) && (status r <=? 299).

Inductive FetchResult :=
| FetchFailed (e : JsError)
| FetchResponse (r : Response).

Inductive DomAction :=
| DCreateObjectURL (b : string)
| DCreateElement (tag : string)
| DSetProperty (prop val : string)
| DAppendChild
| DClick
| DRevokeObjectURL (url : string)
| DRemoveChild.

Inductive Event :=
| EGetItem (key : string)
| ESetItem (key val : string)
| ERemoveItem (key : string)
| EFetch (url : string) (init : RequestInit)
| EConsole (level text : string)
| EDom (a : DomAction).

(** ** Asynchronous computations *)

Inductive Outcome (A : Type) :=
| Resolved (a : A)
| Rejected (e : JsError).
Arguments Resolved {A} a.
Arguments Rejected {A} e.

Record Run (A : Type) := mkRun {
  outcome : Outcome A;
  storage : gmap string string;     (* [localStorage] afterwards *)
  trace : list Event }.
Arguments mkRun {A} _ _ _.
Arguments outcome {A} _.
Arguments storage {A} _.
Arguments trace {A} _.

Definition Async (A : Type) : Type := gmap string string -> Run A.

Definition resolve {A} (a : A) : Async A := fun st => mkRun (Resolved a) st [].
Definition throw {A} (e : JsError) : Async A := fun st => mkRun (Rejected e) st [].

(** [await m], then [k]: a rejection of [m] skips [k]. *)
Definition await {A B} (m : Async A) (k : A -> Async B) : Async B :=
  fun st =>
    match m st with
    | mkRun (Resolved a) st1 t1 =>
        match k a st1 with
        | mkRun o st2 t2 => mkRun o st2 (t1 ++ t2)
        end
    | mkRun (Rejected e) st1 t1 => mkRun (Rejected e) st1 t1
    end.

(** [try { m } catch { h }] and [m.catch(h)] *)
Definition catch {A} (m : Async A) (h : JsError -> Async A) : Async A :=
  fun st =>
    match m st with
    | mkRun (Resolved a) st1 t1 => mkRun (Resolved a) st1 t1
    | mkRun (Rejected e) st1 t1 =>
        match h e st1 with
        | mkRun o st2 t2 => mkRun o st2 (t1 ++ t2)
        end
    end.

#[global] Instance Async_ret : MRet Async := @resolve.
#[global] Instance Async_bind : MBind Async := fun A B k m => await m k.

Definition emit (e : Event) : Async unit := fun st => mkRun (Resolved tt) st [e].

Definition lift {A} (r : JsError + A) : Async A :=
  match r with inl e => throw e | inr a => resolve a end.

Definition localStorage_getItem (key : string) : Async (option string) :=
  fun st => mkRun (Resolved (st !! key)) st [EGetItem key].

Definition localStorage_setItem (key : string) (v : value) : Async unit :=
  fun st => mkRun (Resolved tt) (<[key := ToString v]> st)
              [ESetItem key (ToString v)].

Definition localStorage_removeItem (key : string) : Async unit :=
  fun st => mkRun (Resolved tt) (delete key st) [ERemoveItem key].

(** [console.log] and [console.error]: the trace keeps the text that is the
    first argument of the call, not the objects printed after it. *)
Definition console_log (text : string) : Async unit := emit (EConsole "log" text).
Definition console_error (text : string) : Async unit := emit (EConsole "error" text).

(** [response.json()]: rejects with a [SyntaxError] on a body that is not
    JSON. *)
Definition SyntaxError_json : JsError :=
  mkJsError "SyntaxError" "Unexpected token in JSON".

Definition Response_json (r : Response) : Async value :=
  match json_body r with
  | Some v => resolve v
  | None => throw SyntaxError_json
  end.

(** A stored string interpolated into a template literal: [null] prints as
    ["null"]. *)
Definition template (o : option string) : string := default "null" o.

(** [if (token)] on what [getItem] returned. *)
Definition present (o : option string) : bool :=
  match o with Some s => negb (String.eqb s "") | None => false end.

(** ** [URLSearchParams] *)

Definition hex_digit (n : N) : ascii :=
  match n with
  | 0 => "0" | 1 => "1" | 2 => "2" | 3 => "3" | 4 => "4" | 5 => "5"
  | 6 => "6" | 7 => "7" | 8 => "8" | 9 => "9" | 10 => "A" | 11 => "B"
  | 12 => "C" | 13 => "D" | 14 => "E" | _ => "F"
  end%N%char.

(** The bytes the [application/x-www-form-urlencoded] serializer leaves as
    they are: ASCII letters and digits, [*], [-], [.] and [_]. *)
Definition form_plain (c : ascii) : bool :=
  let n := N_of_ascii c in
  ((48 <=? n) && (n <=? 57) || (65 <=? n) && (n <=? 90)
   || (97 <=? n) && (n <=? 122)
   || (n =? 42) || (n =? 45) || (n =? 46) || (n =? 95))%N.

Definition form_encode_byte (c : ascii) : string :=
  if form_plain c then String c ""
  else if Ascii.eqb c " " then "+"
  else let n := N_of_ascii c in
       String "%" (String (hex_digit (n / 16)%N) (String (hex_digit (n mod 16)%N) "")).

Fixpoint form_encode (s : string) : string :=
  match s with
  | "" => ""
  | String c rest => form_encode_byte c +:+ form_encode rest
  end.

(** [params.toString()] for the pairs appended so far. *)
Fixpoint URLSearchParams_toString (params : list (string * string)) : string :=
  match params with
  | [] => ""
  | (k, v) :: rest =>
      let pair := form_encode k +:+ "=" +:+ form_encode v in
      match rest with
      | [] => pair
      | _ :: _ => pair +:+ "&" +:+ URLSearchParams_toString rest
      end
  end.

(** [if (filters?.key) params.append(name, filters.key)] *)
Definition append_if (name : string) (o : option string)
    (params : list (string * string)) : list (string * string) :=
  match o with
  | Some s => if present (Some s) then params ++ [(name, s)] else params
  | None => params
  end.

(** ** The class *)

Record MongoDBAPI := { baseURL : string }.

(** [import.meta.env.VITE_API_BASE_URL || ''] *)
Definition API_BASE (VITE_API_BASE_URL : option string) : string :=
  if present VITE_API_BASE_URL then default "" VITE_API_BASE_URL else "".

(** [constructor(baseURL?)] *)
Definition new_MongoDBAPI (VITE_API_BASE_URL baseURL : option string) : MongoDBAPI :=
  {| baseURL := if present baseURL then default "" baseURL
                else API_BASE VITE_API_BASE_URL |}.

Section API.

(** What the server, or the network on the way to it, answers to each
    [fetch]; and the URL the browser mints for a blob. *)
Variable network : string -> RequestInit -> FetchResult.
Variable createObjectURL : string -> string.

(** [this] *)
Variable self : MongoDBAPI.

Definition fetch (url : string) (init : RequestInit) : Async Response :=
  fun st =>
    match network url init with
    | FetchResponse r => mkRun (Resolved r) st [EFetch url init]
    | FetchFailed e => mkRun (Rejected e) st [EFetch url init]
    end.

(** [{ message: 'Unknown error' }] *)
Definition unknown_error : value := VObj [("message", VStr "Unknown error")].

(** [throw new Error(error.message || 'API request failed')] *)
Definition throw_api_error {A} (error : value) : Async A :=
  msg ← lift (Get error "message");
  throw (new_Error (js_or msg (VStr "API request failed"))).

(** Generic request helper *)
Definition request (endpoint : string) (options : RequestInit) : Async value :=
  let url := baseURL self +:+ endpoint in
  let defaultHeaders : gmap string string :=
    <["Accept" := "application/json"]>
      (<["Content-Type" := "application/json"]> ∅) in
  token ← localStorage_getItem "authToken";
  let defaultHeaders :=
    if present token
    then <["Authorization" := "Bearer " +:+ default "" token]> defaultHeaders
    else defaultHeaders in
  console_log ("MongoDB API Request: "
               +:+ (if present (method options)
                    then default "" (method options) else "GET")
               +:+ " " +:+ endpoint);;
  response ← fetch url
    {| method := method options;
       body := body options;
       headers := Some (sent_headers options ∪ defaultHeaders) |};
  console_log ("MongoDB API Response: " +:+ pretty (status response)
               +:+ " " +:+ endpoint);;
  if negb (ok response) then
    error ← catch (Response_json response) (fun _ => resolve unknown_error);
    console_error "MongoDB API Error:";;
    throw_api_error error
  else
    Response_json response.

(** The [User] object that [login] and [registerUser] build from the
    response. *)
Definition pick_user (response : value) : Async value :=
  id ← lift (Get response "id");
  name ← lift (Get response "name");
  email ← lift (Get response "email");
  role ← lift (Get response "role");
  resolve (VObj [("id", id); ("name", name); ("email", email); ("role", role)]).

Definition POST_json (v : value) : RequestInit :=
  {| method := Some "POST"; headers := None; body := Some (BodyJSON v) |}.
Definition PUT_json (v : value) : RequestInit :=
  {| method := Some "PUT"; headers := None; body := Some (BodyJSON v) |}.
Definition POST_empty : RequestInit :=
  {| method := Some "POST"; headers := None; body := None |}.
Definition DELETE_empty : RequestInit :=
  {| method := Some "DELETE"; headers := None; body := None |}.

(** *** Authentication *)

Definition login (email password : string) : Async value :=
  response ← request "/users/login"
    (POST_json (VObj [("email", VStr email); ("password", VStr password)]));
  token ← lift (Get response "token");
  localStorage_setItem "authToken" token;;
  pick_user response.

Definition logout : Async value :=
  localStorage_removeItem "authToken";;
  resolve VUndefined.

Definition getCurrentUser : Async value :=
  catch (request "/users/me" no_options) (fun _ => resolve VNull).

(** *** Registration *)

Definition registerUser (userData : CreateUserData) : Async value :=
  response ← request "/users/register"
    (POST_json (CreateUserData_value userData));
  token ← lift (Get response "token");
  localStorage_setItem "authToken" token;;
  pick_user response.

(** *** Jobs *)

Definition getJobs (filters : option JobFilters) : Async value :=
  let params : list (string * string) := [] in
  let params := append_if "status" (filters ≫= f_status) params in
  let params := append_if "category" (filters ≫= f_category) params in
  let params := append_if "priority" (filters ≫= f_priority) params in
  let params := append_if "search" (filters ≫= f_search) params in
  let endpoint :=
    if negb (String.eqb (URLSearchParams_toString params) "")
    then "/jobs?" +:+ URLSearchParams_toString params
    else "/jobs" in
  request endpoint no_options.

Definition getJob (id : string) : Async value :=
  request ("/jobs/" +:+ id) no_options.

Definition createJob (jobData : CreateJobData) : Async value :=
  response ← request "/jobs" (POST_json (CreateJobData_value jobData));
  resolve response.

Definition updateJob (id : string) (jobData : UpdateJobData) : Async value :=
  response ← request ("/jobs/" +:+ id) (PUT_json (UpdateJobData_value jobData));
  resolve response.

Definition deleteJob (id : string) : Async value :=
  request ("/jobs/" +:+ id) DELETE_empty;;
  resolve VUndefined.

Definition claimJob (id : string) : Async value :=
  request ("/jobs/" +:+ id +:+ "/claim") POST_empty;;
  resolve VUndefined.

Definition updateJobStatus (id : string) (status : JobStatus) : Async value :=
  request ("/jobs/" +:+ id +:+ "/status")
    (POST_json (VObj [("status", VStr (JobStatus_str status))]));;
  resolve VUndefined.

Definition submitPDF (id : string) (file : File) : Async value :=
  let formData := [("submission", file)] in
  token ← localStorage_getItem "authToken";
  response ← fetch (baseURL self +:+ "/jobs/" +:+ id +:+ "/submit")
    {| method := Some "POST";
       headers := Some {[ "Authorization" := "Bearer " +:+ template token ]};
       body := Some (BodyFormData formData) |};
  if negb (ok response) then
    error ← catch (Response_json response) (fun _ => resolve unknown_error);
    throw_api_error error
  else
    Response_json response.

Definition downloadPDF (id : string) : Async value :=
  token ← localStorage_getItem "authToken";
  response ← fetch (baseURL self +:+ "/jobs/" +:+ id +:+ "/download")
    {| method := Some "GET";
       headers := Some {[ "Authorization" := "Bearer " +:+ template token ]};
       body := None |};
  if negb (ok response) then
    throw (new_Error (VStr "Failed to download PDF"))
  else
    let url := createObjectURL (blob response) in
    emit (EDom (DCreateObjectURL (blob response)));;
    emit (EDom (DCreateElement "a"));;
    emit (EDom (DSetProperty "href" url));;
    emit (EDom (DSetProperty "download" ("submission-" +:+ id +:+ ".pdf")));;
    emit (EDom DAppendChild);;
    emit (EDom DClick);;
    emit (EDom (DRevokeObjectURL url));;
    emit (EDom DRemoveChild);;
    resolve VUndefined.

(** *** Users (admin only) *)

Definition getUsers : Async value := request "/users" no_options.

Definition createUser (userData : CreateUserData) : Async value :=
  response ← request "/users/register"
    (POST_json (CreateUserData_value userData));
  resolve response.

Definition updateUser (id : string) (userData : UpdateUserData) : Async value :=
  response ← request ("/users/" +:+ id) (PUT_json (UpdateUserData_value userData));
  resolve response.

Definition deleteUser (id : string) : Async value :=
  request ("/users/" +:+ id) DELETE_empty;;
  resolve VUndefined.

(** *** A call of a public method *)

Inductive Call :=
| c_login (email password : string)
| c_logout
| c_getCurrentUser
| c_registerUser (userData : CreateUserData)
| c_getJobs (filters : option JobFilters)
| c_getJob (id : string)
| c_createJob (jobData : CreateJobData)
| c_updateJob (id : string) (jobData : UpdateJobData)
| c_deleteJob (id : string)
| c_claimJob (id : string)
| c_updateJobStatus (id : string) (status : JobStatus)
| c_submitPDF (id : string) (file : File)
| c_downloadPDF (id : string)
| c_getUsers
| c_createUser (userData : CreateUserData)
| c_updateUser (id : string) (userData : UpdateUserData)
| c_deleteUser (id : string).

Definition invoke (c : Call) : Async value :=
  match c with
  | c_login email password => login email password
  | c_logout => logout
  | c_getCurrentUser => getCurrentUser
  | c_registerUser userData => registerUser userData
  | c_getJobs filters => getJobs filters
  | c_getJob id => getJob id
  | c_createJob jobData => createJob jobData
  | c_updateJob id jobData => updateJob id jobData
  | c_deleteJob id => deleteJob id
  | c_claimJob id => claimJob id
  | c_updateJobStatus id status => updateJobStatus id status
  | c_submitPDF id file => submitPDF id file
  | c_downloadPDF id => downloadPDF id
  | c_getUsers => getUsers
  | c_createUser userData => createUser userData
  | c_updateUser id userData => updateUser id userData
  | c_deleteUser id => deleteUser id
  end.

(** *** What a trace shows *)

(** The [fetch] calls of a trace, in order. *)
Fixpoint fetches (t : list Event) : list (string * RequestInit) :=
  match t with
  | [] => []
  | EFetch url init :: rest => (url, init) :: fetches rest
  | _ :: rest => fetches rest
  end.

(** The [localStorage] keys a trace reads, and those it writes or
    removes. *)
Fixpoint keys_read (t : list Event) : list string :=
  match t with
  | [] => []
  | EGetItem k :: rest => k :: keys_read rest
  | _ :: rest => keys_read rest
  end.

Fixpoint keys_written (t : list Event) : list string :=
  match t with
  | [] => []
  | ESetItem k _ :: rest => k :: keys_written rest
  | ERemoveItem k :: rest => k :: keys_written rest
  | _ :: rest => keys_written rest
  end.

(** The default headers [request] builds when [localStorage] is [st]. *)
Definition request_headers (st : gmap string string) : gmap string string :=
  let defaultHeaders : gmap string string :=
    <["Accept" := "application/json"]>
      (<["Content-Type" := "application/json"]> ∅) in
  if present (st !! "authToken")
  then <["Authorization" := "Bearer " +:+ default "" (st !! "authToken")]>
         defaultHeaders
  else defaultHeaders.

(** The init dictionary [request] hands to [fetch]: the caller's options,
    with its headers laid over the default ones. *)
Definition request_init (options : RequestInit) (st : gmap string string)
  : RequestInit :=
  {| method := method options;
     body := body options;
     headers := Some (sent_headers options ∪ request_headers st) |}.

(** The headers [submitPDF] and [downloadPDF] hand to [fetch] when
    [localStorage] is [st]. *)
Definition direct_headers (st : gmap string string) : gmap string string :=
  {[ "Authorization" := "Bearer " +:+ template (st !! "authToken") ]}.

(** The init dictionary of those two methods. *)
Definition direct_init (verb : string) (payload : option Body)
    (st : gmap string string) : RequestInit :=
  {| method := Some verb; headers := Some (direct_headers st); body := payload |}.

(** How [request] settles, given what [fetch] settled with. *)
Definition api_error (error : value) : Outcome value :=
  match Get error "message" with
  | inl e => Rejected e
  | inr msg => Rejected (new_Error (js_or msg (VStr "API request failed")))
  end.

Definition decoded (r : Response) : Outcome value :=
  match json_body r with
  | Some v => Resolved v
  | None => Rejected SyntaxError_json
  end.

Definition settle (f : FetchResult) : Outcome value :=
  match f with
  | FetchFailed e => Rejected e
  | FetchResponse r =>
      if ok r then decoded r
      else api_error (default unknown_error (json_body r))
  end.

End API.

(** ** The documented interface *)

(** The method, path and body the interface documents for a call. *)
Record Endpoint := {
  e_method : string;
  e_path : string;
  e_body : option Body }.

(** The query string [getJobs] adds to its path: one pair per filter that
    is given and not empty, in the order status, category, priority,
    search. *)
Definition jobs_query (filters : option JobFilters) : string :=
  let given name (get : JobFilters -> option string) :=
    match filters ≫= get with
    | Some s => if String.eqb s "" then [] else [(name, s)]
    | None => []
    end in
  let q := URLSearchParams_toString
             (given "status" f_status ++ given "category" f_category
              ++ given "priority" f_priority ++ given "search" f_search) in
  if String.eqb q "" then "" else "?" +:+ q.

(** The endpoints of section 6 of the specification, one per method;
    [logout] has none. *)
Definition documented (c : Call) : option Endpoint :=
  let json v := Some (BodyJSON v) in
  match c with
  | c_login email password =>
      Some {| e_method := "POST"; e_path := "/users/login";
              e_body := json (VObj [("email", VStr email);
                                    ("password", VStr password)]) |}
  | c_logout => None
  | c_getCurrentUser =>
      Some {| e_method := "GET"; e_path := "/users/me"; e_body := None |}
  | c_registerUser userData | c_createUser userData =>
      Some {| e_method := "POST"; e_path := "/users/register";
              e_body := json (CreateUserData_value userData) |}
  | c_getJobs filters =>
      Some {| e_method := "GET"; e_path := "/jobs" +:+ jobs_query filters;
              e_body := None |}
  | c_getJob id =>
      Some {| e_method := "GET"; e_path := "/jobs/" +:+ id; e_body := None |}
  | c_createJob jobData =>
      Some {| e_method := "POST"; e_path := "/jobs";
              e_body := json (CreateJobData_value jobData) |}
  | c_updateJob id jobData =>
      Some {| e_method := "PUT"; e_path := "/jobs/" +:+ id;
              e_body := json (UpdateJobData_value jobData) |}
  | c_deleteJob id =>
      Some {| e_method := "DELETE"; e_path := "/jobs/" +:+ id; e_body := None |}
  | c_claimJob id =>
      Some {| e_method := "POST"; e_path := "/jobs/" +:+ id +:+ "/claim";
              e_body := None |}
  | c_updateJobStatus id status =>
      Some {| e_method := "POST"; e_path := "/jobs/" +:+ id +:+ "/status";
              e_body := json (VObj [("status", VStr (JobStatus_str status))]) |}
  | c_submitPDF id file =>
      Some {| e_method := "POST"; e_path := "/jobs/" +:+ id +:+ "/submit";
              e_body := Some (BodyFormData [("submission", file)]) |}
  | c_downloadPDF id =>
      Some {| e_method := "GET"; e_path := "/jobs/" +:+ id +:+ "/download";
              e_body := None |}
  | c_getUsers =>
      Some {| e_method := "GET"; e_path := "/users"; e_body := None |}
  | c_updateUser id userData =>
      Some {| e_method := "PUT"; e_path := "/users/" +:+ id;
              e_body := json (UpdateUserData_value userData) |}
  | c_deleteUser id =>
      Some {| e_method := "DELETE"; e_path := "/users/" +:+ id; e_body := None |}
  end.

(** What a [fetch] call puts on the wire, as the interface describes it. *)
Definition on_wire (base : string) (e : Endpoint) : string * string * option Body :=
  (e_method e, base +:+ e_path e, e_body e).

Definition wire_of (f : string * RequestInit) : string * string * option Body :=
  (http_method f.2, f.1, body f.2).

(** The methods that go through [request]. *)
Definition uses_request (c : Call) : bool :=
  match c with
  | c_logout | c_submitPDF _ _ | c_downloadPDF _ => false
  | _ => true
  end.

(** The methods that send a request at all. *)
Definition sends_request (c : Call) : bool :=
  match c with c_logout => false | _ => true end.

(** The methods that hand back what [request] gave them. *)
Definition returns_unchanged (c : Call) : bool :=
  match c with
  | c_getJobs _ | c_getJob _ | c_createJob _ | c_updateJob _ _
  | c_getUsers | c_createUser _ | c_updateUser _ _ => true
  | _ => false
  end.

(** The methods that store the token of the response. *)
Definition stores_token (c : Call) : bool :=
  match c with c_login _ _ | c_registerUser _ => true | _ => false end.

(** ** Further readings of the interface *)

(** The methods that await [request] and drop what it resolved with. *)
Definition is_void (c : Call) : bool :=
  match c with
  | c_deleteJob _ | c_claimJob _ | c_updateJobStatus _ _ | c_deleteUser _ => true
  | _ => false
  end.

(** The DOM actions of a trace, in order. *)
Fixpoint dom_actions (t : list Event) : list DomAction :=
  match t with
  | [] => []
  | EDom a :: rest => a :: dom_actions rest
  | _ :: rest => dom_actions rest
  end.

(** The user object built from the four fields of a response. *)
Definition user_of (response : value) : value :=
  VObj [("id", default VUndefined (maybe inr (Get response "id")));
        ("name", default VUndefined (maybe inr (Get response "name")));
        ("email", default VUndefined (maybe inr (Get response "email")));
        ("role", default VUndefined (maybe inr (Get response "role")))].

(** The methods that decode the body of the response as JSON. *)
Definition decodes_json (c : Call) : bool :=
  match c with
  | c_logout | c_downloadPDF _ => false
  | _ => true
  end.

(** What a method makes of the way its request settled: [getCurrentUser]
    turns a rejection into [null]; the void methods drop the result;
    [login] and [registerUser] read the token and build the user; the
    others pass the result on. *)
Definition after_request (c : Call) (o : Outcome value) : Outcome value :=
  match o with
  | Rejected e =>
      match c with c_getCurrentUser => Resolved VNull | _ => Rejected e end
  | Resolved v =>
      if is_void c then Resolved VUndefined
      else if stores_token c then
        match Get v "token" with
        | inl e => Rejected e
        | inr _ => Resolved (user_of v)
        end
      else Resolved v
  end.

(** What it leaves in [localStorage]. *)
Definition stored_after (c : Call) (o : Outcome value) (st : gmap string string)
  : gmap string string :=
  match o with
  | Rejected _ => st
  | Resolved v =>
      if stores_token c then
        match Get v "token" with
        | inl _ => st
        | inr tok => <["authToken" := ToString tok]> st
        end
      else st
  end.

(** A filter that [getJobs] skips: not given, or the empty string. *)
Definition blank (o : option string) : bool := negb (present o).

Definition no_filters (filters : option JobFilters) : bool :=
  blank (filters ≫= f_status) && blank (filters ≫= f_category)
  && blank (filters ≫= f_priority) && blank (filters ≫= f_search).

(** The bytes a serialized query component is made of: the plain ones,
    [+] for a space, and [%] before two hexadecimal digits. *)
Definition form_safe (c : ascii) : bool :=
  form_plain c || Ascii.eqb c "+" || Ascii.eqb c "%".

Fixpoint all_bytes (P : ascii -> bool) (s : string) : bool :=
  match s with
  | "" => true
  | String c rest => P c && all_bytes P rest
  end.

(** The base URL the constructor settles on. *)
Definition chosen_base (VITE_API_BASE_URL baseURL : option string) : string :=
  match baseURL with
  | Some b => if String.eqb b "" then
                match VITE_API_BASE_URL with Some e => e | None => "" end
              else b
  | None => match VITE_API_BASE_URL with Some e => e | None => "" end
  end.

(** ** Sample servers and clients *)

Module Sample.

Definition api : MongoDBAPI := new_MongoDBAPI None (Some "https://jobs.example/api").

Definition mint (b : string) : string := "blob:" +:+ b.

(** A server that answers every request with the given status and JSON
    body. *)
Definition server (code : Z) (payload : option value)
  : string -> RequestInit -> FetchResult :=
  fun _ _ => FetchResponse {| status := code; json_body := payload; blob := "%PDF" |}.

Definition session : value :=
  VObj [("id", VStr "u1"); ("name", VStr "Ada"); ("email", VStr "ada@example.org");
        ("role", VStr "member"); ("token", VStr "tok-123")].

Definition ada : CreateUserData :=
  {| cu_name := "Ada"; cu_email := "ada@example.org"; cu_password := "s3cret";
     cu_role := Some member |}.

Definition signed_in : gmap string string :=
  <["authToken" := "tok-old"]> (<["theme" := "dark"]> ∅).

Definition login_ada : Call := c_login "ada@example.org" "s3cret".

(** The user [login] builds from [session]. *)
Definition ada_user : value :=
  VObj [("id", VStr "u1"); ("name", VStr "Ada");
        ("email", VStr "ada@example.org"); ("role", VStr "member")].

Definition logo_job : CreateJobData :=
  {| cj_title := "Logo"; cj_description := "A logo"; cj_scope := "one page";
     cj_fee := 120; cj_deadline := "2025-01-31"; cj_priority := high;
     cj_category := "design" |}.

Definition unavailable : value :=
  VObj [("message", VStr "Database unavailable")].

(** The response of [server 500 (Some unavailable)]. *)
Definition unavailable_response : Response :=
  {| status := 500; json_body := Some unavailable; blob := "%PDF" |}.

End Sample.

(** ** Further sample servers *)

Module Scenario.

(** The network is down: every [fetch] rejects. *)
Definition offline : string -> RequestInit -> FetchResult :=
  fun _ _ => FetchFailed (mkJsError "TypeError" "Failed to fetch").

(** A server that answers 204 with an empty body. *)
Definition no_content : string -> RequestInit -> FetchResult :=
  fun _ _ => FetchResponse {| status := 204; json_body := None; blob := "" |}.

Definition no_content_response : Response :=
  {| status := 204; json_body := None; blob := "" |}.

(** A session without a token. *)
Definition tokenless : value :=
  VObj [("id", VStr "u1"); ("name", VStr "Ada"); ("email", VStr "ada@example.org");
        ("role", VStr "member")].

Definition response_of (code : Z) (payload : option value) : Response :=
  {| status := code; json_body := payload; blob := "%PDF" |}.

Definition users_url : string := "https://jobs.example/api/users".

Definition login_url : string := "https://jobs.example/api/users/login".

Definition login_init : RequestInit :=
  request_init
    (POST_json (VObj [("email", VStr "ada@example.org"); ("password", VStr "s3cret")]))
    Sample.signed_in.

Definition users_init : RequestInit := request_init no_options Sample.signed_in.

Definition fetch_error : JsError := mkJsError "TypeError" "Failed to fetch".

Definition job_url : string := "https://jobs.example/api/jobs/j7".

Definition blank_filters : option JobFilters :=
  Some {| f_status := Some ""; f_category := None;
          f_priority := Some ""; f_search := None |}.

End Scenario.

(** * Properties *)

(** The maps of headers and of [localStorage] are reasoned about through
    their lookup lemmas, never by unfolding them. *)
#[local] Arguments insert : simpl never.
#[local] Arguments singletonM : simpl never.
#[local] Arguments union : simpl never.
#[local] Arguments lookup : simpl never.
#[local] Arguments delete : simpl never.
#[local] Arguments empty : simpl never.
#[local] Arguments pretty : simpl never.

(** ** Traces *)

Lemma fetches_app (t u : list Event) : fetches (t ++ u) = fetches t ++ fetches u.
Proof.
  induction t as [|e t IH]; [reflexivity|].
  destruct e; simpl; rewrite IH; reflexivity.
Qed.

Lemma keys_read_app (t u : list Event) :
  keys_read (t ++ u) = keys_read t ++ keys_read u.
Proof.
  induction t as [|e t IH]; [reflexivity|].
  destruct e; simpl; rewrite IH; reflexivity.
Qed.

Lemma keys_written_app (t u : list Event) :
  keys_written (t ++ u) = keys_written t ++ keys_written u.
Proof.
  induction t as [|e t IH]; [reflexivity|].
  destruct e; simpl; rewrite IH; reflexivity.
Qed.

(** ** Values as strings *)

Lemma pretty_N_go_nonempty (x : N) (s : string) :
  s <> "" -> pretty_N_go x s <> "".
Proof.
  revert s. induction (N.lt_wf_0 x) as [x _ IH]; intros s Hs.
  destruct (decide (x = 0%N)) as [->|Hx].
  - by rewrite pretty_N_go_0.
  - rewrite pretty_N_go_step by lia.
    apply IH; [apply N.div_lt; lia | discriminate].
Qed.

Lemma pretty_N_nonempty (x : N) : pretty x <> "".
Proof.
  unfold pretty, pretty_N. case_decide; [discriminate|].
  rewrite pretty_N_go_step by lia. apply pretty_N_go_nonempty. discriminate.
Qed.

Lemma pretty_Z_nonempty (n : Z) : pretty n <> "".
Proof.
  destruct n as [|p|p]; unfold pretty, pretty_Z.
  - discriminate.
  - apply pretty_N_nonempty.
  - discriminate.
Qed.

(** A truthy value that is not an array prints as a non-empty string. *)
Lemma ToString_truthy (v : value) :
  truthy v = true -> (forall items, v <> VArr items) -> ToString v <> "".
Proof.
  intros Ht Harr. destruct v as [| |b|n|s|items|props]; simpl in *.
  - discriminate.
  - discriminate.
  - subst b. discriminate.
  - apply pretty_Z_nonempty.
  - intros ->. discriminate.
  - by destruct (Harr items).
  - discriminate.
Qed.

(** The message of the error thrown for a non-success response is empty
    only if the [message] of the payload is an array. *)
Lemma api_error_rejects (error : value) :
  exists e, api_error error = Rejected e
    /\ (message e = "" -> exists items, Get error "message" = inr (VArr items)).
Proof.
  unfold api_error. destruct (Get error "message") as [e|msg] eqn:HG.
  - exists e. split; [reflexivity|].
    destruct error; simpl in HG; try discriminate;
      injection HG as <-; discriminate.
  - eexists. split; [reflexivity|]. unfold js_or.
    destruct (truthy msg) eqn:Ht; [|discriminate].
    intros Hm.
    assert (Hs : ToString msg = "") by (destruct msg; try exact Hm; discriminate).
    destruct msg as [| | | | |items|]; eauto;
      exfalso; revert Hs; apply ToString_truthy; done.
Qed.

(** ** Awaiting *)

Section Awaiting.
Context {A B : Type} (m : Async A) (k : A -> Async B) (st : gmap string string).

Lemma await_resolved a :
  outcome (m st) = Resolved a ->
  await m k st =
    mkRun (outcome (k a (storage (m st)))) (storage (k a (storage (m st))))
          (trace (m st) ++ trace (k a (storage (m st)))).
Proof.
  unfold await. destruct (m st) as [[a'|e] st1 t1]; simpl; [|discriminate].
  intros [= ->]. by destruct (k a st1).
Qed.

Lemma await_rejected e :
  outcome (m st) = Rejected e ->
  await m k st = mkRun (Rejected e) (storage (m st)) (trace (m st)).
Proof.
  unfold await. destruct (m st) as [[a|e'] st1 t1]; simpl; [discriminate|].
  by intros [= ->].
Qed.

Lemma outcome_await :
  outcome (await m k st) =
  match outcome (m st) with
  | Resolved a => outcome (k a (storage (m st)))
  | Rejected e => Rejected e
  end.
Proof.
  unfold await. destruct (m st) as [[a|e] st1 t1]; simpl; [|done].
  by destruct (k a st1).
Qed.

Lemma storage_await :
  storage (await m k st) =
  match outcome (m st) with
  | Resolved a => storage (k a (storage (m st)))
  | Rejected e => storage (m st)
  end.
Proof.
  unfold await. destruct (m st) as [[a|e] st1 t1]; simpl; [|done].
  by destruct (k a st1).
Qed.

Lemma trace_await :
  trace (await m k st) =
  trace (m st) ++ match outcome (m st) with
                  | Resolved a => trace (k a (storage (m st)))
                  | Rejected e => []
                  end.
Proof.
  unfold await. destruct (m st) as [[a|e] st1 t1]; simpl.
  - by destruct (k a st1).
  - by rewrite app_nil_r.
Qed.

End Awaiting.

Section Catching.
Context {A : Type} (m : Async A) (h : JsError -> Async A) (st : gmap string string).

Lemma catch_resolved a :
  outcome (m st) = Resolved a -> catch m h st = m st.
Proof.
  unfold catch. destruct (m st) as [[a'|e] st1 t1]; simpl; [done|discriminate].
Qed.

Lemma catch_rejected e :
  outcome (m st) = Rejected e ->
  catch m h st =
    mkRun (outcome (h e (storage (m st)))) (storage (h e (storage (m st))))
          (trace (m st) ++ trace (h e (storage (m st)))).
Proof.
  unfold catch. destruct (m st) as [[a|e'] st1 t1]; simpl; [discriminate|].
  intros [= ->]. by destruct (h e st1).
Qed.

Lemma outcome_catch :
  outcome (catch m h st) =
  match outcome (m st) with
  | Resolved a => Resolved a
  | Rejected e => outcome (h e (storage (m st)))
  end.
Proof.
  unfold catch. destruct (m st) as [[a|e] st1 t1]; simpl; [done|].
  by destruct (h e st1).
Qed.

End Catching.

(** [const r = await m; return r] settles as [m] does. *)
Lemma await_resolve {A} (m : Async A) (st : gmap string string) :
  await m resolve st = m st.
Proof.
  unfold await, resolve. destruct (m st) as [[a|e] st' t]; simpl.
  - rewrite app_nil_r. reflexivity.
  - reflexivity.
Qed.

(** ** The request helper *)

Ltac run_async :=
  unfold submitPDF, downloadPDF, fetch, throw_api_error, Response_json, localStorage_getItem,
    localStorage_setItem, localStorage_removeItem, console_log, console_error,
    emit, pick_user, mbind, Async_bind, await, catch, lift, throw, resolve;
  simpl.

Ltac run_request := unfold request; run_async.

(** The ways a [fetch] and the decoding of its response can go. *)
Ltac request_cases :=
  repeat match goal with
    | |- context [match ?net ?url ?init with FetchFailed _ => _ | FetchResponse _ => _ end] =>
        destruct (net url init); simpl
    | |- context [negb (ok ?r)] => destruct (ok r); simpl
    | |- context [match json_body ?r with Some _ => _ | None => _ end] =>
        destruct (json_body r); simpl
    | |- context [match Get ?v ?k with inl _ => _ | inr _ => _ end] =>
        destruct (Get v k); simpl
    end;
  try reflexivity.

Section Request.
Variable net : string -> RequestInit -> FetchResult.
Variable api : MongoDBAPI.
Variables (endpoint : string) (options : RequestInit) (st : gmap string string).

Lemma request_outcome :
  outcome (request net api endpoint options st)
  = settle (net (baseURL api +:+ endpoint) (request_init options st)).
Proof.
  unfold request_init, request_headers, settle, api_error, decoded.
  run_request.
  destruct (net _ _) as [e|r]; simpl; [reflexivity|].
  destruct (ok r); simpl.
  - destruct (json_body r); reflexivity.
  - destruct (json_body r) as [v|]; simpl.
    + destruct (Get v "message"); reflexivity.
    + reflexivity.
Qed.

(** [request] leaves [localStorage] as it found it. *)
Lemma request_storage : storage (request net api endpoint options st) = st.
Proof. run_request. request_cases. Qed.

(** It calls [fetch] once. *)
Lemma request_fetches :
  fetches (trace (request net api endpoint options st))
  = [(baseURL api +:+ endpoint, request_init options st)].
Proof.
  unfold request_init, request_headers.
  run_request. request_cases.
Qed.

(** It reads the token and writes nothing. *)
Lemma request_keys_read :
  keys_read (trace (request net api endpoint options st)) = ["authToken"].
Proof. run_request. request_cases. Qed.

Lemma request_keys_written :
  keys_written (trace (request net api endpoint options st)) = [].
Proof. run_request. request_cases. Qed.

End Request.

#[global] Opaque request.

(** ** The typed methods *)

(** Splits on how an awaited [request] settled. *)
Ltac await_request :=
  unfold mbind, Async_bind;
  lazymatch goal with
  | |- context [await (request ?n ?a ?ep ?o) ?k ?st] =>
      let E := fresh "E" in
      destruct (outcome (request n a ep o st)) eqn:E;
      [ rewrite (await_resolved (request n a ep o) k st _ E)
      | rewrite (await_rejected (request n a ep o) k st _ E) ]
  | |- context [catch (request ?n ?a ?ep ?o) ?h ?st] =>
      let E := fresh "E" in
      destruct (outcome (request n a ep o st)) eqn:E;
      [ rewrite (catch_resolved (request n a ep o) h st _ E)
      | rewrite (catch_rejected (request n a ep o) h st _ E) ]
  end;
  simpl; rewrite ?request_storage.

(** The query string of [getJobs], as the code builds it. *)
Lemma append_if_given name o params :
  append_if name o params =
  params ++ match o with
            | Some s => if String.eqb s "" then [] else [(name, s)]
            | None => []
            end.
Proof.
  unfold append_if, present. destruct o as [s|]; [|by rewrite app_nil_r].
  destruct (String.eqb s ""); simpl; [by rewrite app_nil_r|done].
Qed.

Lemma getJobs_endpoint net api filters st :
  getJobs net api filters st =
  request net api ("/jobs" +:+ jobs_query filters) no_options st.
Proof.
  unfold getJobs, jobs_query. rewrite !append_if_given, <- !app_assoc.
  rewrite app_nil_l.
  destruct (String.eqb (URLSearchParams_toString _) ""); reflexivity.
Qed.

Ltac adapter_facts := do 4 (split; [reflexivity|]); intros st.

Section Methods.
Variable net : string -> RequestInit -> FetchResult.
Variable mint : string -> string.
Variable api : MongoDBAPI.

Lemma request_init_wire options st :
  headers options = None ->
  http_method (request_init options st) = http_method options
  /\ body (request_init options st) = body options
  /\ sent_headers (request_init options st) = request_headers st.
Proof.
  intros H. unfold request_init, sent_headers, http_method. simpl.
  rewrite H. simpl. by rewrite (left_id_L ∅ (∪)).
Qed.

(** Every method sends the request documented for it, and no other;
    [logout] sends none. *)
Lemma invoke_fetches c st :
  match documented c with
  | None => fetches (trace (invoke net mint api c st)) = []
  | Some e =>
      exists init,
        fetches (trace (invoke net mint api c st))
          = [(baseURL api +:+ e_path e, init)]
        /\ http_method init = e_method e
        /\ body init = e_body e
        /\ sent_headers init
           = if uses_request c then request_headers st else direct_headers st
  end.
Proof.
  destruct c; simpl;
    try (unfold login, registerUser, getCurrentUser, getJob, createJob,
           updateJob, deleteJob, claimJob, updateJobStatus, getUsers,
           createUser, updateUser, deleteUser;
         eexists; split;
         [ await_request; rewrite ?fetches_app, ?request_fetches;
           run_async; request_cases
         | by apply request_init_wire ]).
  - reflexivity.
  - rewrite getJobs_endpoint, request_fetches.
    eexists; split; [reflexivity | by apply request_init_wire].
  - unfold getJob. rewrite request_fetches.
    eexists; split; [reflexivity | by apply request_init_wire].
  - eexists; split; [run_async; request_cases | done].
  - eexists; split; [run_async; request_cases | done].
  - unfold getUsers. rewrite request_fetches.
    eexists; split; [reflexivity | by apply request_init_wire].
Qed.

Lemma request_headers_content_type st :
  request_headers st !! "Content-Type" = Some "application/json".
Proof. unfold request_headers. by destruct (present _); simplify_map_eq. Qed.

(** [request] attaches the stored token, unless there is none or it is
    empty. *)
Lemma request_headers_authorization st :
  request_headers st !! "Authorization" =
  match st !! "authToken" with
  | Some t => if String.eqb t "" then None else Some ("Bearer " +:+ t)
  | None => None
  end.
Proof.
  unfold request_headers, present.
  destruct (st !! "authToken") as [t|]; [|by simplify_map_eq].
  by destruct (String.eqb t ""); simplify_map_eq.
Qed.

(** C1, at the input where the code departs from it: with no token in
    [localStorage], [downloadPDF] and [submitPDF] still send an
    [Authorization] header, and its value is ["Bearer null"]. *)
Theorem direct_fetch_without_token_sends_bearer_null id file st :
  let st0 := delete "authToken" st in
  (exists url init,
      fetches (trace (downloadPDF net mint api id st0)) = [(url, init)]
      /\ sent_headers init !! "Authorization" = Some "Bearer null")
  /\ (exists url init,
        fetches (trace (submitPDF net api id file st0)) = [(url, init)]
        /\ sent_headers init !! "Authorization" = Some "Bearer null").
Proof.
  intros st0.
  assert (Hh : direct_headers st0 !! "Authorization" = Some "Bearer null").
  { unfold direct_headers, st0. rewrite lookup_delete_eq. by simplify_map_eq. }
  split.
  - destruct (invoke_fetches (c_downloadPDF id) st0) as (init & Hf & _ & _ & Hs).
    exists (baseURL api +:+ "/jobs/" +:+ id +:+ "/download"), init.
    split; [exact Hf|]. simpl in Hs. by rewrite Hs.
  - destruct (invoke_fetches (c_submitPDF id file) st0) as (init & Hf & _ & _ & Hs).
    exists (baseURL api +:+ "/jobs/" +:+ id +:+ "/submit"), init.
    split; [exact Hf|]. simpl in Hs. by rewrite Hs.
Qed.

(** The part of C1 the code keeps: a method built on [request] sends
    [Authorization: Bearer <token>] when a non-empty token is stored and
    no [Authorization] header when none is; [submitPDF] and [downloadPDF]
    send the bearer header when a token is stored. *)
Lemma bearer_header_of_stored_token c st :
  sends_request c = true ->
  exists url init,
    fetches (trace (invoke net mint api c st)) = [(url, init)]
    /\ (forall t, st !! "authToken" = Some t -> t <> "" ->
        sent_headers init !! "Authorization" = Some ("Bearer " +:+ t))
    /\ (uses_request c = true -> st !! "authToken" = None ->
        sent_headers init !! "Authorization" = None).
Proof.
  intros Hc. pose proof (invoke_fetches c st) as H.
  destruct (documented c) as [e|] eqn:He; [|by destruct c].
  destruct H as (init & Hf & _ & _ & Hs).
  exists (baseURL api +:+ e_path e), init. split; [exact Hf|].
  rewrite Hs. split.
  - intros t Ht Hne. destruct (uses_request c).
    + rewrite request_headers_authorization, Ht.
      destruct (String.eqb_spec t ""); [done|reflexivity].
    + unfold direct_headers. rewrite Ht. by simplify_map_eq.
  - intros -> Ht. by rewrite request_headers_authorization, Ht.
Qed.

(** C3, amended: every method but [logout] issues exactly one [fetch], with
    the method, URL and body documented for it; [logout] issues none. *)
Theorem typed_method_sends_documented_request c st :
  map wire_of (fetches (trace (invoke net mint api c st))) =
  match documented c with
  | Some e => [on_wire (baseURL api) e]
  | None => []
  end
  /\ (documented c = None <-> c = c_logout).
Proof.
  split; [|by destruct c].
  pose proof (invoke_fetches c st) as H.
  destruct (documented c) as [e|].
  - destruct H as (init & -> & Hm & Hb & _). unfold wire_of, on_wire. simpl.
    by rewrite Hm, Hb.
  - by rewrite H.
Qed.

(** C8: the one request of a method built on [request] carries
    [Content-Type: application/json]. *)
Theorem json_request_has_content_type c st :
  uses_request c = true ->
  exists url init,
    fetches (trace (invoke net mint api c st)) = [(url, init)]
    /\ sent_headers init !! "Content-Type" = Some "application/json".
Proof.
  intros Hc. pose proof (invoke_fetches c st) as H.
  destruct (documented c) as [e|] eqn:He; [|by destruct c].
  destruct H as (init & Hf & _ & _ & Hs). rewrite Hc in Hs.
  exists (baseURL api +:+ e_path e), init. split; [exact Hf|].
  rewrite Hs. apply request_headers_content_type.
Qed.

(** *** What the methods do to [localStorage] *)

(** A method that does not store the token reads at most the token and
    writes nothing; of these only [logout] changes [localStorage]. *)
Lemma invoke_frame c st :
  stores_token c = false ->
  let r := invoke net mint api c st in
  storage r = (if sends_request c then st else delete "authToken" st)
  /\ keys_written (trace r) = (if sends_request c then [] else ["authToken"])
  /\ keys_read (trace r) = (if sends_request c then ["authToken"] else []).
Proof.
  intros Hc. destruct c; try discriminate Hc; simpl; clear Hc;
    unfold getCurrentUser, getJob, createJob, updateJob, deleteJob, claimJob,
      updateJobStatus, getUsers, createUser, updateUser, deleteUser;
    rewrite ?getJobs_endpoint;
    try (by rewrite request_storage, request_keys_read, request_keys_written);
    try (await_request;
         rewrite ?keys_read_app, ?keys_written_app, ?request_storage,
           ?request_keys_read, ?request_keys_written; done).
  - done.
  - run_async; request_cases; done.
  - run_async; request_cases; done.
Qed.

(** [login] and [registerUser], after their [request] has settled: the
    token of the response is stored, then the user is built; a rejected
    request, or a response that is [null], stores nothing. *)
Lemma stores_token_run c st :
  stores_token c = true ->
  let r := invoke net mint api c st in
  exists endpoint options,
    trace r = trace (request net api endpoint options st)
              ++ match outcome r with
                 | Resolved _ =>
                     [ESetItem "authToken" (default "" (storage r !! "authToken"))]
                 | Rejected _ => []
                 end
    /\ match outcome (request net api endpoint options st) with
       | Resolved response =>
           match Get response "token" with
           | inr tok =>
               storage r = <["authToken" := ToString tok]> st
               /\ outcome r = Resolved
                    (VObj [("id", default VUndefined (maybe inr (Get response "id")));
                           ("name", default VUndefined (maybe inr (Get response "name")));
                           ("email", default VUndefined (maybe inr (Get response "email")));
                           ("role", default VUndefined (maybe inr (Get response "role")))])
           | inl e => storage r = st /\ outcome r = Rejected e
           end
       | Rejected e => storage r = st /\ outcome r = Rejected e
       end.
Proof.
  intros Hc. destruct c; try discriminate Hc; simpl; clear Hc;
    unfold login, registerUser.
  1: exists "/users/login",
       (POST_json (VObj [("email", VStr email); ("password", VStr password)])).
  2: exists "/users/register", (POST_json (CreateUserData_value userData)).
  all: await_request; [|by rewrite app_nil_r].
  all: destruct a; run_async; simplify_map_eq; done.
Qed.

(** C5: the only [localStorage] key a method reads, writes or removes
    is [authToken]; every other entry is left as it was; [login] and
    [registerUser] write the token when they resolve, [logout] removes it,
    and every other method leaves [localStorage] unchanged. *)
Theorem only_the_token_is_persistent c st :
  let r := invoke net mint api c st in
  Forall (eq "authToken") (keys_read (trace r) ++ keys_written (trace r))
  /\ delete "authToken" (storage r) = delete "authToken" st
  /\ match c with
     | c_login _ _ | c_registerUser _ =>
         match outcome r with
         | Resolved _ =>
             (exists tok, storage r = <["authToken" := tok]> st)
             /\ keys_written (trace r) = ["authToken"]
         | Rejected _ => storage r = st /\ keys_written (trace r) = []
         end
     | c_logout => storage r = delete "authToken" st
     | _ => storage r = st /\ keys_written (trace r) = []
     end.
Proof.
  intros r. destruct (stores_token c) eqn:Hc.
  - destruct (stores_token_run c st Hc) as (endpoint & options & Ht & Hr).
    fold r in Ht, Hr. rewrite Ht, keys_read_app, keys_written_app,
      request_keys_read, request_keys_written.
    assert (Hcases :
      match outcome r with
      | Resolved _ => exists tok, storage r = <["authToken" := tok]> st
      | Rejected _ => storage r = st
      end).
    { destruct (outcome (request net api endpoint options st)) as [response|e].
      - destruct (Get response "token") as [e|tok]; destruct Hr as [Hs ->]; eauto.
      - by destruct Hr as [Hs ->]. }
    destruct (outcome r).
    + destruct Hcases as [tok Hs]. repeat split.
      * simpl. by repeat constructor.
      * rewrite Hs. apply delete_insert_eq.
      * destruct c; try discriminate Hc; eauto.
    + rewrite Hcases. repeat split.
      * simpl. by repeat constructor.
      * destruct c; try discriminate Hc; eauto.
  - destruct (invoke_frame c st Hc) as (Hs & Hw & Hr). fold r in Hs, Hw, Hr.
    rewrite Hs, Hw, Hr.
    destruct c; try discriminate Hc; simpl; repeat split;
      try apply delete_delete_eq; by repeat constructor.
Qed.

(** C10: [createUser] sends the request [registerUser] sends, a POST of
    the user data to [/users/register], and leaves [localStorage], the
    [authToken] entry with it, exactly as it was. *)
Theorem createUser_leaves_token userData st :
  let r := createUser net api userData st in
  fetches (trace r) = fetches (trace (registerUser net api userData st))
  /\ map wire_of (fetches (trace r)) =
     [("POST", baseURL api +:+ "/users/register",
       Some (BodyJSON (CreateUserData_value userData)))]
  /\ storage r = st
  /\ storage r !! "authToken" = st !! "authToken"
  /\ keys_written (trace r) = [].
Proof.
  intros r.
  assert (Hr : r = request net api "/users/register"
                     (POST_json (CreateUserData_value userData)) st)
    by apply await_resolve.
  rewrite Hr, request_storage, request_fetches, request_keys_written.
  split; [|done].
  unfold registerUser, mbind, Async_bind.
  rewrite trace_await, fetches_app, request_fetches, request_storage.
  destruct (outcome (request _ _ _ _ _)) as [response|e]; [|done].
  run_async. request_cases.
Qed.

(** C9: [getCurrentUser] resolves whatever the GET of [/users/me] does:
    with the decoded body of a success response, and with [null] when the
    response is not a success, when its body is not JSON, and when
    [fetch] itself rejects. *)
Theorem getCurrentUser_never_rejects st :
  exists init,
    fetches (trace (getCurrentUser net api st))
      = [(baseURL api +:+ "/users/me", init)]
    /\ http_method init = "GET"
    /\ outcome (getCurrentUser net api st) =
       Resolved
         match net (baseURL api +:+ "/users/me") init with
         | FetchResponse r => if ok r then default VNull (json_body r) else VNull
         | FetchFailed _ => VNull
         end.
Proof.
  exists (request_init no_options st). repeat split.
  - unfold getCurrentUser.
    await_request; rewrite ?fetches_app, request_fetches; reflexivity.
  - unfold getCurrentUser. rewrite outcome_catch, request_outcome.
    unfold settle, decoded, api_error.
    destruct (net _ _) as [e|r]; [reflexivity|].
    destruct (ok r).
    + by destruct (json_body r).
    + by destruct (Get _ _).
Qed.

(** *** How the methods settle *)

Lemma settle_resolved f v :
  settle f = Resolved v ->
  exists r, f = FetchResponse r /\ ok r = true /\ json_body r = Some v.
Proof.
  unfold settle, decoded, api_error. destruct f as [e|r]; [discriminate|].
  destruct (ok r) eqn:Hok.
  - destruct (json_body r) as [w|] eqn:Hj; [|discriminate].
    intros [= ->]. exists r. done.
  - by destruct (Get _ _).
Qed.

(** The two methods that call [fetch] themselves. *)
Lemma submitPDF_run id file st :
  fetches (trace (submitPDF net api id file st))
    = [(baseURL api +:+ "/jobs/" +:+ id +:+ "/submit",
        direct_init "POST" (Some (BodyFormData [("submission", file)])) st)]
  /\ outcome (submitPDF net api id file st)
     = settle (net (baseURL api +:+ "/jobs/" +:+ id +:+ "/submit")
                 (direct_init "POST" (Some (BodyFormData [("submission", file)])) st)).
Proof.
  unfold direct_init, direct_headers, settle, decoded, api_error.
  run_async. split; request_cases.
Qed.

Lemma downloadPDF_run id st :
  fetches (trace (downloadPDF net mint api id st))
    = [(baseURL api +:+ "/jobs/" +:+ id +:+ "/download", direct_init "GET" None st)]
  /\ outcome (downloadPDF net mint api id st)
     = match net (baseURL api +:+ "/jobs/" +:+ id +:+ "/download")
               (direct_init "GET" None st) with
       | FetchFailed e => Rejected e
       | FetchResponse r =>
           if ok r then Resolved VUndefined
           else Rejected (new_Error (VStr "Failed to download PDF"))
       end.
Proof.
  unfold direct_init, direct_headers.
  run_async. split; request_cases.
Qed.

(** A method built on [request] sends what [request] sends, and a
    rejection of [request] is the rejection of the method, except in
    [getCurrentUser]. *)
Lemma via_request c st :
  uses_request c = true ->
  exists endpoint options,
    fetches (trace (invoke net mint api c st))
      = [(baseURL api +:+ endpoint, request_init options st)]
    /\ forall e,
        outcome (request net api endpoint options st) = Rejected e ->
        outcome (invoke net mint api c st) =
        match c with c_getCurrentUser => Resolved VNull | _ => Rejected e end.
Proof.
  intros Hc. destruct c; try discriminate Hc; simpl; clear Hc;
    unfold login, registerUser, getCurrentUser, getJob, createJob,
      updateJob, deleteJob, claimJob, updateJobStatus, getUsers,
      createUser, updateUser, deleteUser;
    rewrite ?getJobs_endpoint;
    eexists _, _;
    (split;
     [ first [ apply request_fetches
             | await_request; rewrite ?fetches_app, ?request_fetches;
               run_async; request_cases ]
     | intros e He;
       first [ exact He
             | unfold mbind, Async_bind;
               rewrite ?outcome_await, ?outcome_catch, He; reflexivity ] ]).
Qed.


(** C6, amended: [getJobs], [getJob], [createJob], [updateJob],
    [getUsers], [createUser] and [updateUser] are [request] at the
    documented path, method and body, with no headers of their own: they
    settle as [request] does, result, [localStorage] and trace. *)
Theorem unchanged_result_adapters c :
  returns_unchanged c = true ->
  exists e options,
    documented c = Some e
    /\ http_method options = e_method e
    /\ body options = e_body e
    /\ headers options = None
    /\ forall st,
        invoke net mint api c st = request net api (e_path e) options st.
Proof.
  intros Hc. destruct c; try discriminate Hc; clear Hc; simpl.
  - eexists _, no_options. adapter_facts. apply getJobs_endpoint.
  - eexists _, no_options. adapter_facts. reflexivity.
  - eexists _, (POST_json (CreateJobData_value jobData)). adapter_facts. apply await_resolve.
  - eexists _, (PUT_json (UpdateJobData_value jobData)). adapter_facts. apply await_resolve.
  - eexists _, no_options. adapter_facts. reflexivity.
  - eexists _, (POST_json (CreateUserData_value userData)). adapter_facts. apply await_resolve.
  - eexists _, (PUT_json (UpdateUserData_value userData)). adapter_facts. apply await_resolve.
Qed.

(** C2, amended: a non-success response to the request of any method
    but [getCurrentUser] makes the method reject, and the message of the
    error is not empty unless the [message] of the JSON payload is an
    array. *)
Theorem non_success_response_rejects c st url init r :
  c <> c_getCurrentUser ->
  In (url, init) (fetches (trace (invoke net mint api c st))) ->
  net url init = FetchResponse r ->
  ok r = false ->
  exists e,
    outcome (invoke net mint api c st) = Rejected e
    /\ (message e = "" ->
        exists payload items,
          json_body r = Some payload
          /\ Get payload "message" = inr (VArr items)).
Proof.
  intros Hc Hin Hnet Hok.
  assert (Hapi : exists e,
    api_error (default unknown_error (json_body r)) = Rejected e
    /\ (message e = "" -> exists payload items,
          json_body r = Some payload /\ Get payload "message" = inr (VArr items))).
  { destruct (api_error_rejects (default unknown_error (json_body r)))
      as (e & He & Hm).
    exists e. split; [exact He|]. intros H0. destruct (Hm H0) as [items Hi].
    destruct (json_body r) as [payload|]; [eauto|discriminate]. }
  destruct (uses_request c) eqn:Hu.
  - destruct (via_request c st Hu) as (endpoint & options & Hf & Hrej).
    rewrite Hf in Hin. destruct Hin as [[= <- <-]|[]].
    destruct Hapi as (e & He & Hm). exists e. split; [|exact Hm].
    rewrite (Hrej e).
    + by destruct c.
    + rewrite request_outcome, Hnet. unfold settle. by rewrite Hok.
  - destruct c; try discriminate Hu; simpl in Hin |- *.
    + destruct Hin.
    + destruct (submitPDF_run id file st) as [Hf Ho].
      rewrite Hf in Hin. destruct Hin as [[= <- <-]|[]].
      rewrite Ho, Hnet. unfold settle. rewrite Hok. exact Hapi.
    + destruct (downloadPDF_run id st) as [Hf Ho].
      rewrite Hf in Hin. destruct Hin as [[= <- <-]|[]].
      rewrite Ho, Hnet, Hok. eexists. split; [reflexivity|discriminate].
Qed.

End Methods.

(** C7: [logout] resolves, for every state of [localStorage]; afterwards no
    token is stored; and it calls [fetch] not once. *)
Theorem logout_clears_token (st : gmap string string) :
  outcome (logout st) = Resolved VUndefined
  /\ storage (logout st) !! "authToken" = None
  /\ storage (logout st) = delete "authToken" st
  /\ fetches (trace (logout st)) = [].
Proof.
  unfold logout. run_async. repeat split. apply lookup_delete_eq.
Qed.

(** ** The theorems at sample inputs *)

(** [getUsers], signed in, against a server that answers 200. *)
Lemma json_request_has_content_type_witness :
  uses_request c_getUsers = true
  /\ exists url init,
      fetches (trace (invoke (Sample.server 200 (Some (VArr []))) Sample.mint
                        Sample.api c_getUsers Sample.signed_in))
        = [(url, init)]
      /\ sent_headers init !! "Content-Type" = Some "application/json".
Proof.
  split; [reflexivity|].
  apply json_request_has_content_type. reflexivity.
Defined.


(** [createJob] is [request] with a POST of the job to [/jobs]. *)
Lemma unchanged_result_adapters_witness :
  returns_unchanged (c_createJob Sample.logo_job) = true
  /\ exists e options,
      documented (c_createJob Sample.logo_job) = Some e
      /\ http_method options = e_method e
      /\ body options = e_body e
      /\ headers options = None
      /\ forall st,
          invoke (Sample.server 201 (Some Sample.session)) Sample.mint Sample.api
            (c_createJob Sample.logo_job) st
          = request (Sample.server 201 (Some Sample.session)) Sample.api
              (e_path e) options st.
Proof.
  split; [reflexivity|].
  apply unchanged_result_adapters. reflexivity.
Defined.

(** [getUsers] against a server that answers 500 with a JSON error. *)
Lemma non_success_response_rejects_witness :
  c_getUsers <> c_getCurrentUser
  /\ In ("https://jobs.example/api/users", request_init no_options Sample.signed_in)
       (fetches (trace (invoke (Sample.server 500 (Some Sample.unavailable))
                          Sample.mint Sample.api c_getUsers Sample.signed_in)))
  /\ Sample.server 500 (Some Sample.unavailable)
       "https://jobs.example/api/users" (request_init no_options Sample.signed_in)
     = FetchResponse Sample.unavailable_response
  /\ ok Sample.unavailable_response = false
  /\ exists e,
      outcome (invoke (Sample.server 500 (Some Sample.unavailable))
                 Sample.mint Sample.api c_getUsers Sample.signed_in)
        = Rejected e
      /\ (message e = "" ->
          exists payload items,
            json_body Sample.unavailable_response = Some payload
            /\ Get payload "message" = inr (VArr items)).
Proof.
  assert (Hin :
    In ("https://jobs.example/api/users", request_init no_options Sample.signed_in)
       (fetches (trace (invoke (Sample.server 500 (Some Sample.unavailable))
                          Sample.mint Sample.api c_getUsers Sample.signed_in))))
    by (vm_compute; left; reflexivity).
  split; [discriminate|]. split; [exact Hin|].
  split; [reflexivity|]. split; [reflexivity|].
  apply (non_success_response_rejects (Sample.server 500 (Some Sample.unavailable))
           Sample.mint Sample.api c_getUsers Sample.signed_in
           "https://jobs.example/api/users"
           (request_init no_options Sample.signed_in)
           Sample.unavailable_response);
    [discriminate | exact Hin | reflexivity..].
Defined.

(** ** Where the specification and the code part *)

(** C2 as stated fails at [getCurrentUser]: a 500 response makes it resolve
    with [null]. *)
Lemma getCurrentUser_swallows_non_success :
  ~ (forall net mint api c st url init r,
       In (url, init) (fetches (trace (invoke net mint api c st))) ->
       net url init = FetchResponse r ->
       ok r = false ->
       exists e, outcome (invoke net mint api c st) = Rejected e
                 /\ message e <> "").
Proof.
  intros H.
  destruct (H (Sample.server 500 None) Sample.mint Sample.api c_getCurrentUser
              Sample.signed_in "https://jobs.example/api/users/me"
              (request_init no_options Sample.signed_in)
              {| status := 500; json_body := None; blob := "%PDF" |})
    as (e & He & _).
  - vm_compute. left. reflexivity.
  - reflexivity.
  - reflexivity.
  - vm_compute in He. discriminate He.
Qed.

(** The other way C2 can fail: a payload whose [message] is an empty array
    is truthy and prints as the empty string. *)
Example empty_array_message :
  outcome (getUsers (Sample.server 500 (Some (VObj [("message", VArr [])])))
             Sample.api Sample.signed_in)
  = Rejected {| err_name := "Error"; message := "" |}.
Proof. vm_compute. reflexivity. Qed.

(** C3 as stated fails at [logout], which calls [fetch] not once. *)
Lemma logout_sends_no_request :
  ~ (forall net mint api c st,
       length (fetches (trace (invoke net mint api c st))) = 1%nat).
Proof.
  intros H.
  specialize (H (Sample.server 200 None) Sample.mint Sample.api c_logout
                Sample.signed_in).
  vm_compute in H. discriminate H.
Qed.

(** C6 as stated fails at [login]: whatever the endpoint and the options,
    [request] resolves with the session the server sent, [login] with a
    user that has no token. *)
Lemma login_reshapes_response :
  ~ (forall net mint api c,
       exists endpoint options, forall st,
         outcome (invoke net mint api c st)
         = outcome (request net api endpoint options st)).
Proof.
  intros H.
  destruct (H (Sample.server 200 (Some Sample.session)) Sample.mint Sample.api
              (c_login "ada@example.org" "s3cret"))
    as (endpoint & options & Heq).
  specialize (Heq Sample.signed_in).
  rewrite request_outcome in Heq. vm_compute in Heq. discriminate Heq.
Qed.

(** C1 at a sample input: signed out, [downloadPDF] sends
    [Authorization: Bearer null]. *)
Example downloadPDF_signed_out :
  (fun f => (f.1, sent_headers f.2 !! "Authorization"))
    <$> fetches (trace (downloadPDF (Sample.server 200 None) Sample.mint
                          Sample.api "42" ∅))
  = [("https://jobs.example/api/jobs/42/download", Some "Bearer null")].
Proof. vm_compute. reflexivity. Qed.

(** C10 at a sample input: the same answer of the server makes
    [registerUser] replace the stored token and [createUser] keep it. *)
Example createUser_and_registerUser :
  storage (registerUser (Sample.server 201 (Some Sample.session)) Sample.api
             Sample.ada Sample.signed_in) !! "authToken"
    = Some "tok-123"
  /\ storage (createUser (Sample.server 201 (Some Sample.session)) Sample.api
                Sample.ada Sample.signed_in) !! "authToken"
    = Some "tok-old".
Proof. split; vm_compute; reflexivity. Qed.

(** * Further behaviour of the client *)

Lemma dom_actions_app (t u : list Event) :
  dom_actions (t ++ u) = dom_actions t ++ dom_actions u.
Proof.
  induction t as [|e t IH]; [reflexivity|].
  destruct e; simpl; rewrite IH; reflexivity.
Qed.

Section Behaviour.
Variable net : string -> RequestInit -> FetchResult.
Variable mint : string -> string.
Variable api : MongoDBAPI.

Lemma request_dom_actions endpoint options st :
  dom_actions (trace (request net api endpoint options st)) = [].
Proof. Transparent request. run_request. request_cases. Opaque request. Qed.

Lemma request_trace_head endpoint options st :
  exists rest,
    trace (request net api endpoint options st) = EGetItem "authToken" :: rest.
Proof.
  Transparent request. run_request. request_cases; eexists; reflexivity.
  Opaque request.
Qed.

(** How a method built on [request] settles, and what it leaves in
    [localStorage], given what the network answers to its one request. *)
Lemma method_settles c st :
  uses_request c = true ->
  exists endpoint options,
    fetches (trace (invoke net mint api c st))
      = [(baseURL api +:+ endpoint, request_init options st)]
    /\ outcome (invoke net mint api c st) =
       after_request c
         (settle (net (baseURL api +:+ endpoint) (request_init options st)))
    /\ storage (invoke net mint api c st) =
       stored_after c
         (settle (net (baseURL api +:+ endpoint) (request_init options st))) st.
Proof.
  intros Hc. unfold after_request, stored_after.
  destruct c; try discriminate Hc; simpl; clear Hc;
    unfold login, registerUser, getCurrentUser, getJob, createJob,
      updateJob, deleteJob, claimJob, updateJobStatus, getUsers,
      createUser, updateUser, deleteUser;
    rewrite ?getJobs_endpoint;
    eexists _, _;
    (split;
     [ first [ apply request_fetches
             | await_request; rewrite ?fetches_app, ?request_fetches;
               run_async; request_cases ]
     | rewrite <- request_outcome;
       first [ await_request
             | rewrite request_storage;
               destruct (outcome (request _ _ _ _ _)) ];
       simpl; rewrite ?request_storage;
       first [ split; reflexivity
             | split; [eassumption | reflexivity]
             | match goal with response : value |- _ => destruct response end;
               run_async; split; reflexivity ] ]).
Qed.

(** The same for the request found in the trace, and for [submitPDF]. *)
Lemma json_method_settles c st url init :
  decodes_json c = true ->
  In (url, init) (fetches (trace (invoke net mint api c st))) ->
  outcome (invoke net mint api c st) = after_request c (settle (net url init))
  /\ storage (invoke net mint api c st) = stored_after c (settle (net url init)) st.
Proof.
  intros Hd Hin. destruct (uses_request c) eqn:Hu.
  - destruct (method_settles c st Hu) as (endpoint & options & Hf & Ho & Hs).
    rewrite Hf in Hin. destruct Hin as [[= <- <-]|[]]. by split.
  - destruct c; try discriminate Hu; try discriminate Hd. simpl in Hin |- *.
    destruct (submitPDF_run net api id file st) as [Hf Ho].
    rewrite Hf in Hin. destruct Hin as [[= <- <-]|[]].
    rewrite Ho. unfold after_request, stored_after. simpl.
    destruct (invoke_frame net mint api (c_submitPDF id file) st eq_refl)
      as (Hs & _). simpl in Hs. rewrite Hs.
    by destruct (settle _).
Qed.

Lemma after_request_rejected c e :
  c <> c_getCurrentUser -> after_request c (Rejected e) = Rejected e.
Proof. intros Hc. by destruct c. Qed.

(** ** Headers *)


(** X2: the request of a method built on [request] carries [Content-Type],
    [Accept] and, exactly when a non-empty token is stored,
    [Authorization]; it carries no other header. *)
Theorem request_based_header_names c st :
  uses_request c = true ->
  exists url init,
    fetches (trace (invoke net mint api c st)) = [(url, init)]
    /\ dom (sent_headers init) =
       {["Content-Type"; "Accept"]}
       ∪ (if present (st !! "authToken") then {["Authorization"]} else ∅ : gset string).
Proof.
  intros Hc. pose proof (invoke_fetches net mint api c st) as H.
  destruct (documented c) as [e|] eqn:He; [|by destruct c].
  destruct H as (init & Hf & _ & _ & Hs). rewrite Hc in Hs.
  exists (baseURL api +:+ e_path e), init. split; [exact Hf|].
  rewrite Hs. unfold request_headers.
  destruct (present (st !! "authToken"));
    rewrite !dom_insert_L, dom_empty_L; set_solver.
Qed.

(** X3: [submitPDF] and [downloadPDF] send an [Authorization] header
    whatever [localStorage] holds, and neither [Content-Type] nor
    [Accept]. *)
Theorem direct_methods_send_only_authorization c st :
  sends_request c = true ->
  uses_request c = false ->
  exists url init,
    fetches (trace (invoke net mint api c st)) = [(url, init)]
    /\ dom (sent_headers init) = ({["Authorization"]} : gset string)
    /\ sent_headers init !! "Content-Type" = None
    /\ sent_headers init !! "Accept" = None.
Proof.
  intros Hs Hu. pose proof (invoke_fetches net mint api c st) as H.
  destruct (documented c) as [e|] eqn:He; [|by destruct c].
  destruct H as (init & Hf & _ & _ & Hh). rewrite Hu in Hh.
  exists (baseURL api +:+ e_path e), init. split; [exact Hf|].
  rewrite Hh. unfold direct_headers.
  rewrite dom_singleton_L. by simplify_map_eq.
Qed.

(** ** Failures *)

(** X4: when [fetch] itself rejects, every method but [getCurrentUser]
    rejects with the very error of [fetch], and [localStorage] is as it
    was. *)
Theorem network_failure_is_passed_on c st url init e :
  c <> c_getCurrentUser ->
  In (url, init) (fetches (trace (invoke net mint api c st))) ->
  net url init = FetchFailed e ->
  outcome (invoke net mint api c st) = Rejected e
  /\ storage (invoke net mint api c st) = st.
Proof.
  intros Hc Hin Hnet. destruct (decodes_json c) eqn:Hd.
  - destruct (json_method_settles c st url init Hd Hin) as [-> ->].
    rewrite Hnet. split; [by apply after_request_rejected|reflexivity].
  - destruct c; try discriminate Hd; simpl in Hin |- *; [destruct Hin|].
    destruct (downloadPDF_run net mint api id st) as [Hf Ho].
    rewrite Hf in Hin. destruct Hin as [[= <- <-]|[]].
    rewrite Ho, Hnet.
    destruct (invoke_frame net mint api (c_downloadPDF id) st eq_refl) as (Hs & _).
    by split.
Qed.

(** X5: a success response whose body is not JSON, a 204 with an empty body
    for one, makes every method that decodes the body reject with the
    [SyntaxError] of [response.json()], the methods that would drop the
    result too; [localStorage] is as it was. *)
Theorem undecodable_success_body_rejects c st url init r :
  decodes_json c = true ->
  c <> c_getCurrentUser ->
  In (url, init) (fetches (trace (invoke net mint api c st))) ->
  net url init = FetchResponse r ->
  ok r = true ->
  json_body r = None ->
  outcome (invoke net mint api c st) = Rejected SyntaxError_json
  /\ storage (invoke net mint api c st) = st.
Proof.
  intros Hd Hc Hin Hnet Hok Hj.
  destruct (json_method_settles c st url init Hd Hin) as [-> ->].
  rewrite Hnet. unfold settle, decoded. rewrite Hok, Hj.
  split; [by apply after_request_rejected|reflexivity].
Qed.

(** X6: [deleteJob], [claimJob], [updateJobStatus] and [deleteUser] resolve
    with [undefined] on a success response, whatever JSON its body holds. *)
Theorem void_methods_drop_the_result c st url init r v :
  is_void c = true ->
  In (url, init) (fetches (trace (invoke net mint api c st))) ->
  net url init = FetchResponse r ->
  ok r = true ->
  json_body r = Some v ->
  outcome (invoke net mint api c st) = Resolved VUndefined
  /\ storage (invoke net mint api c st) = st.
Proof.
  intros Hv Hin Hnet Hok Hj.
  assert (Hd : decodes_json c = true) by (by destruct c).
  destruct (json_method_settles c st url init Hd Hin) as [-> ->].
  rewrite Hnet. unfold settle, decoded. rewrite Hok, Hj.
  unfold after_request, stored_after. rewrite Hv. by destruct c.
Qed.

(** X7: on a non-success response whose JSON body is an object with a
    non-empty string under [message], the error of the rejection carries
    exactly that string. *)
Theorem server_message_is_the_error_message c st url init r props m :
  decodes_json c = true ->
  c <> c_getCurrentUser ->
  In (url, init) (fetches (trace (invoke net mint api c st))) ->
  net url init = FetchResponse r ->
  ok r = false ->
  json_body r = Some (VObj props) ->
  own_prop props "message" = VStr m ->
  m <> "" ->
  outcome (invoke net mint api c st) = Rejected (mkJsError "Error" m).
Proof.
  intros Hd Hc Hin Hnet Hok Hj Hm Hne.
  destruct (json_method_settles c st url init Hd Hin) as [-> _].
  rewrite Hnet. unfold settle. rewrite Hok, Hj.
  assert (Ha : api_error (default unknown_error (Some (VObj props)))
               = Rejected (mkJsError "Error" m)).
  { unfold api_error. simpl. rewrite Hm. unfold js_or. simpl.
    by destruct (String.eqb_spec m ""). }
  rewrite Ha. by apply after_request_rejected.
Qed.

(** X8: on a non-success response whose body is not JSON, the message of
    the error is ["Unknown error"]. *)
Theorem unparsable_error_body_gives_unknown_error c st url init r :
  decodes_json c = true ->
  c <> c_getCurrentUser ->
  In (url, init) (fetches (trace (invoke net mint api c st))) ->
  net url init = FetchResponse r ->
  ok r = false ->
  json_body r = None ->
  outcome (invoke net mint api c st) = Rejected (mkJsError "Error" "Unknown error").
Proof.
  intros Hd Hc Hin Hnet Hok Hj.
  destruct (json_method_settles c st url init Hd Hin) as [-> _].
  rewrite Hnet. unfold settle. rewrite Hok, Hj.
  by apply after_request_rejected.
Qed.

(** X9: on a non-success response whose JSON body has no [message], or a
    falsy one (the empty string, [null], [false], zero), the message of
    the error is ["API request failed"]. *)
Theorem missing_message_gives_generic_error c st url init r payload msg :
  decodes_json c = true ->
  c <> c_getCurrentUser ->
  In (url, init) (fetches (trace (invoke net mint api c st))) ->
  net url init = FetchResponse r ->
  ok r = false ->
  json_body r = Some payload ->
  Get payload "message" = inr msg ->
  truthy msg = false ->
  outcome (invoke net mint api c st)
  = Rejected (mkJsError "Error" "API request failed").
Proof.
  intros Hd Hc Hin Hnet Hok Hj Hm Ht.
  destruct (json_method_settles c st url init Hd Hin) as [-> _].
  rewrite Hnet. unfold settle. rewrite Hok, Hj.
  assert (Ha : api_error (default unknown_error (Some payload))
               = Rejected (mkJsError "Error" "API request failed")).
  { unfold api_error. simpl. rewrite Hm. unfold js_or. by rewrite Ht. }
  rewrite Ha. by apply after_request_rejected.
Qed.

(** X10: on a non-success response whose JSON body is [null], the method
    rejects with the [TypeError] of reading [message] off [null], not with
    an [Error] of the API. *)
Theorem null_error_body_raises_TypeError c st url init r :
  decodes_json c = true ->
  c <> c_getCurrentUser ->
  In (url, init) (fetches (trace (invoke net mint api c st))) ->
  net url init = FetchResponse r ->
  ok r = false ->
  json_body r = Some VNull ->
  exists e,
    outcome (invoke net mint api c st) = Rejected e
    /\ err_name e = "TypeError".
Proof.
  intros Hd Hc Hin Hnet Hok Hj.
  destruct (json_method_settles c st url init Hd Hin) as [-> _].
  rewrite Hnet. unfold settle. rewrite Hok, Hj.
  eexists. split; [by apply after_request_rejected|reflexivity].
Qed.

(** ** The download and the DOM *)

Lemma invoke_dom_actions c st :
  (forall id, c <> c_downloadPDF id) ->
  dom_actions (trace (invoke net mint api c st)) = [].
Proof.
  intros Hc. destruct c; try (by destruct (Hc id)); simpl;
    unfold login, logout, registerUser, getCurrentUser, getJob, createJob,
      updateJob, deleteJob, claimJob, updateJobStatus, getUsers,
      createUser, updateUser, deleteUser;
    rewrite ?getJobs_endpoint;
    first [ apply request_dom_actions
          | await_request; rewrite ?dom_actions_app, ?request_dom_actions;
            run_async; request_cases
          | run_async; request_cases ].
Qed.

(** X11: on a non-success response [downloadPDF] rejects with the message
    ["Failed to download PDF"], whatever the body of the response says,
    and touches neither the DOM nor [localStorage]. *)
Theorem downloadPDF_failure id st url init r :
  In (url, init) (fetches (trace (downloadPDF net mint api id st))) ->
  net url init = FetchResponse r ->
  ok r = false ->
  outcome (downloadPDF net mint api id st)
    = Rejected (mkJsError "Error" "Failed to download PDF")
  /\ dom_actions (trace (downloadPDF net mint api id st)) = []
  /\ storage (downloadPDF net mint api id st) = st.
Proof.
  intros Hin Hnet Hok.
  destruct (downloadPDF_run net mint api id st) as [Hf Ho].
  rewrite Hf in Hin. destruct Hin as [[= <- <-]|[]].
  split; [by rewrite Ho, Hnet, Hok|].
  revert Hnet. unfold direct_init, direct_headers. run_async.
  intros ->. simpl. by rewrite Hok.
Qed.


(** ** Sessions *)

Lemma delete_token_after c st :
  delete "authToken" (storage (invoke net mint api c st)) = delete "authToken" st.
Proof.
  destruct (stores_token c) eqn:Ht.
  - assert (Hu : uses_request c = true) by (by destruct c).
    destruct (method_settles c st Hu) as (endpoint & options & _ & _ & ->).
    unfold stored_after. rewrite Ht.
    destruct (settle _) as [v|e]; [|reflexivity].
    destruct (Get v "token"); [reflexivity|apply delete_insert_eq].
  - destruct (invoke_frame net mint api c st Ht) as (-> & _).
    destruct (sends_request c); [reflexivity|apply delete_delete_eq].
Qed.

(** X13: once [login] or [registerUser] has resolved on a response whose
    token is a non-empty string, the next method that sends a request
    sends that token as its bearer. *)
Theorem token_of_a_login_is_sent_next c1 c2 st url init r response t :
  stores_token c1 = true ->
  In (url, init) (fetches (trace (invoke net mint api c1 st))) ->
  net url init = FetchResponse r ->
  ok r = true ->
  json_body r = Some response ->
  Get response "token" = inr (VStr t) ->
  t <> "" ->
  sends_request c2 = true ->
  exists url2 init2,
    fetches (trace (invoke net mint api c2 (storage (invoke net mint api c1 st))))
      = [(url2, init2)]
    /\ sent_headers init2 !! "Authorization" = Some ("Bearer " +:+ t).
Proof.
  intros H1 Hin Hnet Hok Hj Htok Hne H2.
  assert (Hd : decodes_json c1 = true) by (by destruct c1).
  destruct (json_method_settles c1 st url init Hd Hin) as [_ Hs].
  rewrite Hnet in Hs. unfold settle, decoded in Hs. rewrite Hok, Hj in Hs.
  unfold stored_after in Hs. rewrite H1, Htok in Hs. simpl in Hs.
  destruct (bearer_header_of_stored_token net mint api c2
              (storage (invoke net mint api c1 st)) H2)
    as (url2 & init2 & Hf & Hb & _).
  exists url2, init2. split; [exact Hf|].
  apply Hb; [|exact Hne]. rewrite Hs. apply lookup_insert_eq.
Qed.

(** X14: [login] and [registerUser] resolve on a success response that has
    no [token], and what they store under [authToken] is then the string
    ["undefined"]. *)
Theorem login_without_token_stores_undefined c st url init r props :
  stores_token c = true ->
  In (url, init) (fetches (trace (invoke net mint api c st))) ->
  net url init = FetchResponse r ->
  ok r = true ->
  json_body r = Some (VObj props) ->
  own_prop props "token" = VUndefined ->
  outcome (invoke net mint api c st) = Resolved (user_of (VObj props))
  /\ storage (invoke net mint api c st) = <["authToken" := "undefined"]> st.
Proof.
  intros Hc Hin Hnet Hok Hj Htok.
  assert (Hd : decodes_json c = true) by (by destruct c).
  destruct (json_method_settles c st url init Hd Hin) as [-> ->].
  rewrite Hnet. unfold settle, decoded. rewrite Hok, Hj.
  unfold after_request, stored_after. rewrite Hc.
  assert (Hv : is_void c = false) by (by destruct c). rewrite Hv.
  assert (Hg : Get (VObj props) "token" = inr VUndefined)
    by (simpl; by rewrite Htok).
  by rewrite Hg.
Qed.

(** X15: after [logout], a method built on [request] sends no
    [Authorization] header. *)
Theorem no_bearer_after_logout c st :
  uses_request c = true ->
  exists url init,
    fetches (trace (invoke net mint api c (storage (logout st)))) = [(url, init)]
    /\ sent_headers init !! "Authorization" = None.
Proof.
  intros Hc.
  assert (Hs : sends_request c = true) by (by destruct c).
  destruct (bearer_header_of_stored_token net mint api c (storage (logout st)) Hs)
    as (url & init & Hf & _ & Hn).
  exists url, init. split; [exact Hf|].
  apply Hn; [exact Hc|]. unfold logout. run_async. apply lookup_delete_eq.
Qed.

(** X16: [logout] after any call, whatever the call was and however it
    settled, leaves [localStorage] as it was before the call, less the
    token; a second [logout] changes nothing. *)
Theorem logout_after_any_call c st :
  storage (logout (storage (invoke net mint api c st))) = delete "authToken" st
  /\ storage (logout (storage (logout st))) = storage (logout st).
Proof.
  assert (Hl : forall s, storage (logout s) = delete "authToken" s)
    by (intros s; unfold logout; run_async; reflexivity).
  rewrite !Hl. split; [apply delete_token_after|apply delete_delete_eq].
Qed.

(** X17: every method that sends a request starts by reading the token,
    and reads [localStorage] that once. *)
Theorem token_is_read_first c st :
  sends_request c = true ->
  keys_read (trace (invoke net mint api c st)) = ["authToken"]
  /\ exists rest, trace (invoke net mint api c st) = EGetItem "authToken" :: rest.
Proof.
  intros Hc. split.
  - destruct (stores_token c) eqn:Ht.
    + destruct (stores_token_run net mint api c st Ht) as (ep & o & -> & _).
      rewrite keys_read_app, request_keys_read.
      by destruct (outcome _).
    + destruct (invoke_frame net mint api c st Ht) as (_ & _ & ->).
      by rewrite Hc.
  - destruct c; try discriminate Hc; simpl;
      unfold login, registerUser, getCurrentUser, getJob, createJob,
        updateJob, deleteJob, claimJob, updateJobStatus, getUsers,
        createUser, updateUser, deleteUser;
      rewrite ?getJobs_endpoint;
      first [ apply request_trace_head
            | await_request;
              match goal with
              | |- context [trace (request ?n ?a ?ep ?o ?s)] =>
                  destruct (request_trace_head ep o s) as [rest ->]
              end; simpl; eauto
            | run_async; request_cases; eauto ].
Qed.

(** ** The query of [getJobs] *)

Lemma jobs_query_blank filters :
  jobs_query filters = "" <-> no_filters filters = true.
Proof.
  unfold jobs_query, no_filters, blank, present.
  destruct (filters ≫= f_status) as [s1|]; [destruct (String.eqb s1 "")|];
  (destruct (filters ≫= f_category) as [s2|]; [destruct (String.eqb s2 "")|]);
  (destruct (filters ≫= f_priority) as [s3|]; [destruct (String.eqb s3 "")|]);
  (destruct (filters ≫= f_search) as [s4|]; [destruct (String.eqb s4 "")|]);
  simpl; split; intros H; done.
Qed.

(** X18: [getJobs] asks for the bare [/jobs] exactly when no filter is
    given or every filter given is the empty string; any other filter puts
    a query string after it. *)
Theorem getJobs_bare_path_iff_no_filters filters st :
  no_filters filters = true
  <-> map fst (fetches (trace (getJobs net api filters st)))
      = [baseURL api +:+ "/jobs"].
Proof.
  rewrite getJobs_endpoint, request_fetches. simpl.
  rewrite <- jobs_query_blank. split.
  - intros ->. reflexivity.
  - intros [= H]. apply (inj (String.app (baseURL api))) in H.
    by injection H.
Qed.

End Behaviour.

Lemma string_app_cons x (a b : string) : String x a +:+ b = String x (a +:+ b).
Proof. reflexivity. Qed.

Lemma string_app_assoc (a b c : string) : (a +:+ b) +:+ c = a +:+ b +:+ c.
Proof.
  induction a as [|x a IH]; [reflexivity|].
  rewrite !string_app_cons. by f_equal.
Qed.

Lemma all_bytes_app P (a b : string) :
  all_bytes P (a +:+ b) = all_bytes P a && all_bytes P b.
Proof.
  induction a as [|x a IH]; [reflexivity|].
  rewrite string_app_cons. simpl. by rewrite IH, andb_assoc.
Qed.

Lemma hex_digit_plain (n : N) : form_plain (hex_digit n) = true.
Proof.
  unfold hex_digit.
  repeat match goal with
         | |- context [match ?x with _ => _ end] => destruct x
         end; reflexivity.
Qed.


Lemma form_encode_plain (s : string) :
  all_bytes form_plain s = true -> form_encode s = s.
Proof.
  induction s as [|c s IH]; [reflexivity|].
  simpl. intros [Hc Hs]%andb_true_iff.
  unfold form_encode_byte. rewrite Hc, (IH Hs). reflexivity.
Qed.

(** X20: filters made of letters, digits, [*], [-], [.] and [_] go into the
    URL as they are, in the order status, category, priority, search,
    joined by [&]. *)
Theorem plain_filters_are_sent_verbatim net api st (a b c d : string) :
  a <> "" -> b <> "" -> c <> "" -> d <> "" ->
  all_bytes form_plain a = true -> all_bytes form_plain b = true ->
  all_bytes form_plain c = true -> all_bytes form_plain d = true ->
  map fst (fetches (trace (getJobs net api
     (Some {| f_status := Some a; f_category := Some b;
              f_priority := Some c; f_search := Some d |}) st)))
  = [baseURL api +:+ "/jobs?status=" +:+ a +:+ "&category=" +:+ b
       +:+ "&priority=" +:+ c +:+ "&search=" +:+ d].
Proof.
  intros Ha Hb Hc Hd Pa Pb Pc Pd.
  rewrite getJobs_endpoint, request_fetches. unfold jobs_query. simpl.
  destruct (String.eqb_spec a ""); [done|].
  destruct (String.eqb_spec b ""); [done|].
  destruct (String.eqb_spec c ""); [done|].
  destruct (String.eqb_spec d ""); [done|].
  simpl. rewrite !form_encode_plain by done.
  rewrite !string_app_assoc. reflexivity.
Qed.

(** ** The constructor *)

Lemma constructor_base env b : baseURL (new_MongoDBAPI env b) = chosen_base env b.
Proof.
  unfold new_MongoDBAPI, API_BASE, chosen_base, present. simpl.
  destruct b as [b|]; [destruct (String.eqb b "")|]; simpl;
    (destruct env as [e|]; [destruct (String.eqb_spec e "")|]); simpl;
    congruence.
Qed.

(** X21: a client built with a non-empty base URL sends every request to
    that base followed by the documented path; built with none, or with the
    empty string, it uses [VITE_API_BASE_URL], and with that unset too the
    URL is the path alone. *)
Theorem constructor_chooses_the_base net mint env b c st :
  map fst (fetches (trace (invoke net mint (new_MongoDBAPI env b) c st))) =
  match documented c with
  | Some e => [chosen_base env b +:+ e_path e]
  | None => []
  end.
Proof.
  pose proof (invoke_fetches net mint (new_MongoDBAPI env b) c st) as H.
  destruct (documented c) as [e|].
  - destruct H as (init & -> & _). rewrite <- constructor_base. reflexivity.
  - by rewrite H.
Qed.

(** ** The further theorems at sample inputs *)

Lemma request_based_header_names_witness :
  uses_request c_getUsers = true
  /\ exists url init,
      fetches (trace (invoke (Sample.server 200 (Some (VArr []))) Sample.mint
                        Sample.api c_getUsers Sample.signed_in))
        = [(url, init)]
      /\ dom (sent_headers init) =
         {["Content-Type"; "Accept"]}
         ∪ (if present (Sample.signed_in !! "authToken")
            then {["Authorization"]} else ∅ : gset string).
Proof.
  split; [reflexivity|].
  apply request_based_header_names. reflexivity.
Defined.

Lemma direct_methods_send_only_authorization_witness :
  sends_request (c_downloadPDF "42") = true
  /\ uses_request (c_downloadPDF "42") = false
  /\ exists url init,
      fetches (trace (invoke (Sample.server 200 None) Sample.mint Sample.api
                        (c_downloadPDF "42") Sample.signed_in))
        = [(url, init)]
      /\ dom (sent_headers init) = ({["Authorization"]} : gset string)
      /\ sent_headers init !! "Content-Type" = None
      /\ sent_headers init !! "Accept" = None.
Proof.
  split; [reflexivity|]. split; [reflexivity|].
  apply direct_methods_send_only_authorization; reflexivity.
Defined.

Lemma network_failure_is_passed_on_witness :
  c_getUsers <> c_getCurrentUser
  /\ In (Scenario.users_url, Scenario.users_init)
       (fetches (trace (invoke Scenario.offline Sample.mint Sample.api c_getUsers
                          Sample.signed_in)))
  /\ Scenario.offline Scenario.users_url Scenario.users_init
     = FetchFailed Scenario.fetch_error
  /\ outcome (invoke Scenario.offline Sample.mint Sample.api c_getUsers
                 Sample.signed_in)
     = Rejected Scenario.fetch_error
  /\ storage (invoke Scenario.offline Sample.mint Sample.api c_getUsers
                 Sample.signed_in)
     = Sample.signed_in.
Proof.
  assert (Hin : In (Scenario.users_url, Scenario.users_init)
       (fetches (trace (invoke Scenario.offline Sample.mint Sample.api c_getUsers
                          Sample.signed_in))))
    by (vm_compute; left; reflexivity).
  split; [discriminate|]. split; [exact Hin|]. split; [reflexivity|].
  apply (network_failure_is_passed_on Scenario.offline Sample.mint Sample.api
           c_getUsers Sample.signed_in Scenario.users_url Scenario.users_init
           Scenario.fetch_error); [discriminate | exact Hin | reflexivity].
Defined.

(** [deleteJob] against a server that answers 204 with no body. *)
Lemma undecodable_success_body_rejects_witness :
  decodes_json (c_deleteJob "j7") = true
  /\ c_deleteJob "j7" <> c_getCurrentUser
  /\ In (Scenario.job_url, request_init DELETE_empty Sample.signed_in)
       (fetches (trace (invoke Scenario.no_content Sample.mint Sample.api
                          (c_deleteJob "j7") Sample.signed_in)))
  /\ Scenario.no_content Scenario.job_url (request_init DELETE_empty Sample.signed_in)
     = FetchResponse Scenario.no_content_response
  /\ ok Scenario.no_content_response = true
  /\ json_body Scenario.no_content_response = None
  /\ outcome (invoke Scenario.no_content Sample.mint Sample.api
                 (c_deleteJob "j7") Sample.signed_in)
     = Rejected SyntaxError_json
  /\ storage (invoke Scenario.no_content Sample.mint Sample.api
                 (c_deleteJob "j7") Sample.signed_in)
     = Sample.signed_in.
Proof.
  assert (Hin : In (Scenario.job_url, request_init DELETE_empty Sample.signed_in)
       (fetches (trace (invoke Scenario.no_content Sample.mint Sample.api
                          (c_deleteJob "j7") Sample.signed_in))))
    by (vm_compute; left; reflexivity).
  split; [reflexivity|]. split; [discriminate|]. split; [exact Hin|].
  split; [reflexivity|]. split; [reflexivity|]. split; [reflexivity|].
  apply (undecodable_success_body_rejects Scenario.no_content Sample.mint
           Sample.api (c_deleteJob "j7") Sample.signed_in Scenario.job_url
           (request_init DELETE_empty Sample.signed_in)
           Scenario.no_content_response);
    [reflexivity | discriminate | exact Hin | reflexivity..].
Defined.

Lemma void_methods_drop_the_result_witness :
  is_void (c_deleteJob "j7") = true
  /\ In (Scenario.job_url, request_init DELETE_empty Sample.signed_in)
       (fetches (trace (invoke (Sample.server 200 (Some Sample.session)) Sample.mint
                          Sample.api (c_deleteJob "j7") Sample.signed_in)))
  /\ Sample.server 200 (Some Sample.session) Scenario.job_url
       (request_init DELETE_empty Sample.signed_in)
     = FetchResponse (Scenario.response_of 200 (Some Sample.session))
  /\ ok (Scenario.response_of 200 (Some Sample.session)) = true
  /\ json_body (Scenario.response_of 200 (Some Sample.session)) = Some Sample.session
  /\ outcome (invoke (Sample.server 200 (Some Sample.session)) Sample.mint
                 Sample.api (c_deleteJob "j7") Sample.signed_in)
     = Resolved VUndefined
  /\ storage (invoke (Sample.server 200 (Some Sample.session)) Sample.mint
                 Sample.api (c_deleteJob "j7") Sample.signed_in)
     = Sample.signed_in.
Proof.
  assert (Hin : In (Scenario.job_url, request_init DELETE_empty Sample.signed_in)
       (fetches (trace (invoke (Sample.server 200 (Some Sample.session)) Sample.mint
                          Sample.api (c_deleteJob "j7") Sample.signed_in))))
    by (vm_compute; left; reflexivity).
  split; [reflexivity|]. split; [exact Hin|].
  split; [reflexivity|]. split; [reflexivity|]. split; [reflexivity|].
  apply (void_methods_drop_the_result (Sample.server 200 (Some Sample.session))
           Sample.mint Sample.api (c_deleteJob "j7") Sample.signed_in
           Scenario.job_url (request_init DELETE_empty Sample.signed_in)
           (Scenario.response_of 200 (Some Sample.session)) Sample.session);
    [reflexivity | exact Hin | reflexivity..].
Defined.

(** A 500 with a message. *)
Lemma server_message_is_the_error_message_witness :
  decodes_json c_getUsers = true
  /\ c_getUsers <> c_getCurrentUser
  /\ In (Scenario.users_url, Scenario.users_init)
       (fetches (trace (invoke (Sample.server 500 (Some Sample.unavailable)) Sample.mint Sample.api c_getUsers Sample.signed_in)))
  /\ (Sample.server 500 (Some Sample.unavailable)) Scenario.users_url Scenario.users_init
     = FetchResponse (Scenario.response_of 500 (Some Sample.unavailable))
  /\ ok (Scenario.response_of 500 (Some Sample.unavailable)) = false
  /\ json_body (Scenario.response_of 500 (Some Sample.unavailable))
     = Some (VObj [("message", VStr "Database unavailable")])
  /\ own_prop [("message", VStr "Database unavailable")] "message"
     = VStr "Database unavailable"
  /\ "Database unavailable" <> ""
  /\ outcome (invoke (Sample.server 500 (Some Sample.unavailable)) Sample.mint Sample.api c_getUsers Sample.signed_in)
     = Rejected (mkJsError "Error" "Database unavailable").
Proof.
  assert (Hin : In (Scenario.users_url, Scenario.users_init)
       (fetches (trace (invoke (Sample.server 500 (Some Sample.unavailable)) Sample.mint Sample.api c_getUsers Sample.signed_in))))
    by (vm_compute; left; reflexivity).
  split; [reflexivity|]. split; [discriminate|]. split; [exact Hin|].
  split; [reflexivity|]. split; [reflexivity|].
  do 3 (split; [first [reflexivity | discriminate]|]).
  apply (server_message_is_the_error_message (Sample.server 500 (Some Sample.unavailable)) Sample.mint Sample.api c_getUsers Sample.signed_in
           Scenario.users_url Scenario.users_init (Scenario.response_of 500 (Some Sample.unavailable)) [("message", VStr "Database unavailable")] "Database unavailable");
    first [reflexivity | discriminate | exact Hin].
Defined.

(** A 502 with an HTML body. *)
Lemma unparsable_error_body_gives_unknown_error_witness :
  decodes_json c_getUsers = true
  /\ c_getUsers <> c_getCurrentUser
  /\ In (Scenario.users_url, Scenario.users_init)
       (fetches (trace (invoke (Sample.server 502 None) Sample.mint Sample.api c_getUsers Sample.signed_in)))
  /\ (Sample.server 502 None) Scenario.users_url Scenario.users_init
     = FetchResponse (Scenario.response_of 502 None)
  /\ ok (Scenario.response_of 502 None) = false
  /\ json_body (Scenario.response_of 502 None) = None
  /\ outcome (invoke (Sample.server 502 None) Sample.mint Sample.api c_getUsers Sample.signed_in)
     = Rejected (mkJsError "Error" "Unknown error").
Proof.
  assert (Hin : In (Scenario.users_url, Scenario.users_init)
       (fetches (trace (invoke (Sample.server 502 None) Sample.mint Sample.api c_getUsers Sample.signed_in))))
    by (vm_compute; left; reflexivity).
  split; [reflexivity|]. split; [discriminate|]. split; [exact Hin|].
  split; [reflexivity|]. split; [reflexivity|].
  do 1 (split; [first [reflexivity | discriminate]|]).
  apply (unparsable_error_body_gives_unknown_error (Sample.server 502 None) Sample.mint Sample.api c_getUsers Sample.signed_in
           Scenario.users_url Scenario.users_init (Scenario.response_of 502 None) );
    first [reflexivity | discriminate | exact Hin].
Defined.

(** A 500 with an empty JSON object. *)
Lemma missing_message_gives_generic_error_witness :
  decodes_json c_getUsers = true
  /\ c_getUsers <> c_getCurrentUser
  /\ In (Scenario.users_url, Scenario.users_init)
       (fetches (trace (invoke (Sample.server 500 (Some (VObj []))) Sample.mint Sample.api c_getUsers Sample.signed_in)))
  /\ (Sample.server 500 (Some (VObj []))) Scenario.users_url Scenario.users_init
     = FetchResponse (Scenario.response_of 500 (Some (VObj [])))
  /\ ok (Scenario.response_of 500 (Some (VObj []))) = false
  /\ json_body (Scenario.response_of 500 (Some (VObj []))) = Some (VObj [])
  /\ Get (VObj []) "message" = inr VUndefined
  /\ truthy VUndefined = false
  /\ outcome (invoke (Sample.server 500 (Some (VObj []))) Sample.mint Sample.api c_getUsers Sample.signed_in)
     = Rejected (mkJsError "Error" "API request failed").
Proof.
  assert (Hin : In (Scenario.users_url, Scenario.users_init)
       (fetches (trace (invoke (Sample.server 500 (Some (VObj []))) Sample.mint Sample.api c_getUsers Sample.signed_in))))
    by (vm_compute; left; reflexivity).
  split; [reflexivity|]. split; [discriminate|]. split; [exact Hin|].
  split; [reflexivity|]. split; [reflexivity|].
  do 3 (split; [first [reflexivity | discriminate]|]).
  apply (missing_message_gives_generic_error (Sample.server 500 (Some (VObj []))) Sample.mint Sample.api c_getUsers Sample.signed_in
           Scenario.users_url Scenario.users_init (Scenario.response_of 500 (Some (VObj []))) (VObj []) VUndefined);
    first [reflexivity | discriminate | exact Hin].
Defined.

(** A 500 whose body is the JSON text null. *)
Lemma null_error_body_raises_TypeError_witness :
  decodes_json c_getUsers = true
  /\ c_getUsers <> c_getCurrentUser
  /\ In (Scenario.users_url, Scenario.users_init)
       (fetches (trace (invoke (Sample.server 500 (Some VNull)) Sample.mint Sample.api c_getUsers Sample.signed_in)))
  /\ (Sample.server 500 (Some VNull)) Scenario.users_url Scenario.users_init
     = FetchResponse (Scenario.response_of 500 (Some VNull))
  /\ ok (Scenario.response_of 500 (Some VNull)) = false
  /\ json_body (Scenario.response_of 500 (Some VNull)) = Some VNull
  /\ exists e,
      outcome (invoke (Sample.server 500 (Some VNull)) Sample.mint Sample.api c_getUsers Sample.signed_in) = Rejected e
      /\ err_name e = "TypeError".
Proof.
  assert (Hin : In (Scenario.users_url, Scenario.users_init)
       (fetches (trace (invoke (Sample.server 500 (Some VNull)) Sample.mint Sample.api c_getUsers Sample.signed_in))))
    by (vm_compute; left; reflexivity).
  split; [reflexivity|]. split; [discriminate|]. split; [exact Hin|].
  split; [reflexivity|]. split; [reflexivity|].
  do 1 (split; [first [reflexivity | discriminate]|]).
  apply (null_error_body_raises_TypeError (Sample.server 500 (Some VNull)) Sample.mint Sample.api c_getUsers Sample.signed_in
           Scenario.users_url Scenario.users_init (Scenario.response_of 500 (Some VNull)) );
    first [reflexivity | discriminate | exact Hin].
Defined.

(** A download the server refuses with 404. *)
Lemma downloadPDF_failure_witness :
  In ("https://jobs.example/api/jobs/42/download", direct_init "GET" None Sample.signed_in)
     (fetches (trace (downloadPDF (Sample.server 404 (Some Sample.unavailable))
                        Sample.mint Sample.api "42" Sample.signed_in)))
  /\ Sample.server 404 (Some Sample.unavailable)
       "https://jobs.example/api/jobs/42/download"
       (direct_init "GET" None Sample.signed_in)
     = FetchResponse (Scenario.response_of 404 (Some Sample.unavailable))
  /\ ok (Scenario.response_of 404 (Some Sample.unavailable)) = false
  /\ outcome (downloadPDF (Sample.server 404 (Some Sample.unavailable))
                 Sample.mint Sample.api "42" Sample.signed_in)
     = Rejected (mkJsError "Error" "Failed to download PDF")
  /\ dom_actions (trace (downloadPDF (Sample.server 404 (Some Sample.unavailable))
                            Sample.mint Sample.api "42" Sample.signed_in)) = []
  /\ storage (downloadPDF (Sample.server 404 (Some Sample.unavailable))
                 Sample.mint Sample.api "42" Sample.signed_in)
     = Sample.signed_in.
Proof.
  assert (Hin :
    In ("https://jobs.example/api/jobs/42/download",
        direct_init "GET" None Sample.signed_in)
       (fetches (trace (downloadPDF (Sample.server 404 (Some Sample.unavailable))
                          Sample.mint Sample.api "42" Sample.signed_in))))
    by (vm_compute; left; reflexivity).
  split; [exact Hin|]. split; [reflexivity|]. split; [reflexivity|].
  apply (downloadPDF_failure (Sample.server 404 (Some Sample.unavailable))
           Sample.mint Sample.api "42" Sample.signed_in
           "https://jobs.example/api/jobs/42/download"
           (direct_init "GET" None Sample.signed_in)
           (Scenario.response_of 404 (Some Sample.unavailable)));
    [exact Hin | reflexivity..].
Defined.

(** Ada logs in, then lists the users. *)
Lemma token_of_a_login_is_sent_next_witness :
  stores_token Sample.login_ada = true
  /\ In (Scenario.login_url, Scenario.login_init)
       (fetches (trace (invoke (Sample.server 200 (Some Sample.session)) Sample.mint
                          Sample.api Sample.login_ada Sample.signed_in)))
  /\ Sample.server 200 (Some Sample.session) Scenario.login_url Scenario.login_init
     = FetchResponse (Scenario.response_of 200 (Some Sample.session))
  /\ ok (Scenario.response_of 200 (Some Sample.session)) = true
  /\ json_body (Scenario.response_of 200 (Some Sample.session)) = Some Sample.session
  /\ Get Sample.session "token" = inr (VStr "tok-123")
  /\ "tok-123" <> ""
  /\ sends_request c_getUsers = true
  /\ exists url2 init2,
      fetches (trace (invoke (Sample.server 200 (Some Sample.session)) Sample.mint
                        Sample.api c_getUsers
                        (storage (invoke (Sample.server 200 (Some Sample.session))
                                    Sample.mint Sample.api Sample.login_ada
                                    Sample.signed_in))))
        = [(url2, init2)]
      /\ sent_headers init2 !! "Authorization" = Some ("Bearer " +:+ "tok-123").
Proof.
  assert (Hin : In (Scenario.login_url, Scenario.login_init)
       (fetches (trace (invoke (Sample.server 200 (Some Sample.session)) Sample.mint
                          Sample.api Sample.login_ada Sample.signed_in))))
    by (vm_compute; left; reflexivity).
  split; [reflexivity|]. split; [exact Hin|].
  do 3 (split; [reflexivity|]). split; [reflexivity|].
  split; [discriminate|]. split; [reflexivity|].
  apply (token_of_a_login_is_sent_next (Sample.server 200 (Some Sample.session))
           Sample.mint Sample.api Sample.login_ada c_getUsers Sample.signed_in
           Scenario.login_url Scenario.login_init
           (Scenario.response_of 200 (Some Sample.session)) Sample.session "tok-123");
    first [reflexivity | discriminate | exact Hin].
Defined.

(** A server that accepts the login and sends no token. *)
Lemma login_without_token_stores_undefined_witness :
  stores_token Sample.login_ada = true
  /\ In (Scenario.login_url, Scenario.login_init)
       (fetches (trace (invoke (Sample.server 200 (Some Scenario.tokenless))
                          Sample.mint Sample.api Sample.login_ada Sample.signed_in)))
  /\ Sample.server 200 (Some Scenario.tokenless) Scenario.login_url Scenario.login_init
     = FetchResponse (Scenario.response_of 200 (Some Scenario.tokenless))
  /\ ok (Scenario.response_of 200 (Some Scenario.tokenless)) = true
  /\ json_body (Scenario.response_of 200 (Some Scenario.tokenless))
     = Some (VObj [("id", VStr "u1"); ("name", VStr "Ada");
                   ("email", VStr "ada@example.org"); ("role", VStr "member")])
  /\ own_prop [("id", VStr "u1"); ("name", VStr "Ada");
               ("email", VStr "ada@example.org"); ("role", VStr "member")] "token"
     = VUndefined
  /\ outcome (invoke (Sample.server 200 (Some Scenario.tokenless)) Sample.mint
                 Sample.api Sample.login_ada Sample.signed_in)
     = Resolved (user_of (VObj [("id", VStr "u1"); ("name", VStr "Ada");
                                ("email", VStr "ada@example.org");
                                ("role", VStr "member")]))
  /\ storage (invoke (Sample.server 200 (Some Scenario.tokenless)) Sample.mint
                 Sample.api Sample.login_ada Sample.signed_in)
     = <["authToken" := "undefined"]> Sample.signed_in.
Proof.
  assert (Hin : In (Scenario.login_url, Scenario.login_init)
       (fetches (trace (invoke (Sample.server 200 (Some Scenario.tokenless))
                          Sample.mint Sample.api Sample.login_ada Sample.signed_in))))
    by (vm_compute; left; reflexivity).
  split; [reflexivity|]. split; [exact Hin|].
  do 4 (split; [reflexivity|]).
  apply (login_without_token_stores_undefined
           (Sample.server 200 (Some Scenario.tokenless)) Sample.mint Sample.api
           Sample.login_ada Sample.signed_in Scenario.login_url Scenario.login_init
           (Scenario.response_of 200 (Some Scenario.tokenless)));
    first [reflexivity | exact Hin].
Defined.

Lemma no_bearer_after_logout_witness :
  uses_request c_getUsers = true
  /\ exists url init,
      fetches (trace (invoke (Sample.server 401 None) Sample.mint Sample.api
                        c_getUsers (storage (logout Sample.signed_in))))
        = [(url, init)]
      /\ sent_headers init !! "Authorization" = None.
Proof.
  split; [reflexivity|].
  apply no_bearer_after_logout. reflexivity.
Defined.

Lemma token_is_read_first_witness :
  sends_request (c_downloadPDF "42") = true
  /\ keys_read (trace (invoke (Sample.server 200 None) Sample.mint Sample.api
                         (c_downloadPDF "42") Sample.signed_in))
     = ["authToken"]
  /\ exists rest,
      trace (invoke (Sample.server 200 None) Sample.mint Sample.api
               (c_downloadPDF "42") Sample.signed_in)
      = EGetItem "authToken" :: rest.
Proof.
  split; [reflexivity|].
  apply token_is_read_first. reflexivity.
Defined.

Lemma plain_filters_are_sent_verbatim_witness :
  "open" <> "" /\ "design" <> "" /\ "high" <> "" /\ "logo" <> ""
  /\ all_bytes form_plain "open" = true
  /\ all_bytes form_plain "design" = true
  /\ all_bytes form_plain "high" = true
  /\ all_bytes form_plain "logo" = true
  /\ map fst (fetches (trace (getJobs (Sample.server 200 (Some (VArr []))) Sample.api
       (Some {| f_status := Some "open"; f_category := Some "design";
                f_priority := Some "high"; f_search := Some "logo" |})
       Sample.signed_in)))
     = [baseURL Sample.api +:+ "/jobs?status=" +:+ "open" +:+ "&category=" +:+ "design"
          +:+ "&priority=" +:+ "high" +:+ "&search=" +:+ "logo"].
Proof.
  do 4 (split; [discriminate|]). do 4 (split; [reflexivity|]).
  apply plain_filters_are_sent_verbatim; first [discriminate | reflexivity].
Defined.

(** A search with a space and an ampersand; the empty category is
    skipped. *)
Example getJobs_escapes_the_search :
  map fst (fetches (trace (getJobs (Sample.server 200 (Some (VArr []))) Sample.api
     (Some {| f_status := Some "open"; f_category := Some "";
              f_priority := None; f_search := Some "a b&c" |})
     Sample.signed_in)))
  = ["https://jobs.example/api/jobs?status=open&search=a+b%26c"].
Proof. vm_compute. reflexivity. Qed.

(** Filters that are all empty or missing leave the path bare. *)
Example getJobs_with_blank_filters :
  map fst (fetches (trace (getJobs (Sample.server 200 (Some (VArr []))) Sample.api
                             Scenario.blank_filters Sample.signed_in)))
  = ["https://jobs.example/api/jobs"].
Proof. vm_compute. reflexivity. Qed.
